(** * Perievent analysis of fiber-photometry sessions

    A shallow embedding of [fiberphotopy/analysis.py]: the constructor
    [RatSession.__init__], the index sampler [RatSession._sample], the
    perievent pipeline [RatSession.analyze_perievent],
    [RatSession.update_window], [RatSession.plot], and of [Analysis] the
    methods [__repr__], [_possible_data] and [smooth], followed by the
    properties established about them.

    Numbers.  The Python code computes on NumPy [float64] arrays.  The
    embedding is written once over an interface [Scalar] of the scalar
    operations the code uses, and the properties of the code are proved
    for every instance of it, under the hypotheses on the order of the
    scalars that they need.  The interface is instantiated twice:
    - at [float], the kernel's binary64 numbers, in which the definitions
      run on concrete recordings and the hypotheses hold of every value
      that is not a NaN;
    - at [R], exact real arithmetic, for the identities that hold up to
      rounding only.

    Control.  A Python call either returns a value or raises; [result]
    records which.  Methods of a session read and mutate [self] and may
    print; they are state transformers over [World]. *)

From Stdlib Require Import PrimFloat.
From Stdlib Require FloatOps FloatAxioms SpecFloat Uint63 QArith Qabs.
From Stdlib Require Import String Ascii List Sorted Bool ZArith Lia.
From Stdlib Require Import Reals Lra Zfloor.
Import ListNotations.

Set Implicit Arguments.

(** ** Python runtime *)

Module Py.

(** Exception classes.  The built-in ones are those the embedded code or
    its libraries raise; [UserError] stands for any other class, by name. *)
Inductive exn : Type :=
| KeyError
| IndexError
| ValueError
| TypeError
| OverflowError
| UnboundLocalError
| UserError (name : string).

(** The outcome of evaluating an expression. *)
Inductive result (A : Type) : Type :=
| Ok (a : A)
| Raise (e : exn).

Arguments Ok {A} a.
Arguments Raise {A} e.

Definition bind {A B : Type} (r : result A) (k : A -> result B) : result B :=
  match r with
  | Ok a => k a
  | Raise e => Raise e
  end.

(** [a[0]] and [a[-1]] on a one-dimensional sequence. *)
Definition first {A : Type} (l : list A) : result A :=
  match l with
  | [] => Raise IndexError
  | x :: _ => Ok x
  end.

Fixpoint last {A : Type} (l : list A) : result A :=
  match l with
  | [] => Raise IndexError
  | [x] => Ok x
  | _ :: l' => last l'
  end.

(** Slice bounds: a negative bound counts from the end, and every bound is
    clamped to the sequence. *)
Definition clamp (n i : Z) : Z :=
  if (i <? 0)%Z then Z.max 0 (i + n) else Z.min i n.

(** [l[lo:hi]]; an absent bound is [None]. *)
Definition slice {A : Type} (lo hi : option Z) (l : list A) : list A :=
  let n := Z.of_nat (length l) in
  let a := match lo with None => 0%Z | Some i => clamp n i end in
  let b := match hi with None => n | Some j => clamp n j end in
  firstn (Z.to_nat (b - a)) (skipn (Z.to_nat a) l).

(** [l[:k]] and [l[k:]]. *)
Definition upto {A : Type} (k : Z) (l : list A) : list A := slice None (Some k) l.
Definition from {A : Type} (k : Z) (l : list A) : list A := slice (Some k) None l.

End Py.

Import Py.

Notation "x <- e ;; k" := (Py.bind e (fun x => k))
  (at level 100, e at next level, right associativity).

(** ** Scalars *)

(** The operations of a NumPy [float64] that the code relies on. *)
Class Scalar (F : Type) : Type := {
  fzero : F;
  fone : F;
  fadd : F -> F -> F;
  fsub : F -> F -> F;
  fmul : F -> F -> F;
  fdiv : F -> F -> F;
  fabs : F -> F;
  fsqrt : F -> F;
  (** [x < y] and [x == y] *)
  fltb : F -> F -> bool;
  feqb : F -> F -> bool;
  (** [float(n)] for an integer [n] *)
  of_int : Z -> F;
  (** [math.ceil(x)] *)
  fceil : F -> result Z;
  (** [str(x) == str(y)] *)
  fstr_eqb : F -> F -> bool
}.

(** Exact reals. *)
Definition Rltb (x y : R) : bool := if Rlt_dec x y then true else false.
Definition Reqb (x y : R) : bool := if Req_dec_T x y then true else false.

#[export] Instance Scalar_R : Scalar R := {
  fzero := 0%R;
  fone := 1%R;
  fadd := Rplus;
  fsub := Rminus;
  fmul := Rmult;
  fdiv := Rdiv;
  fabs := Rabs;
  fsqrt := sqrt;
  fltb := Rltb;
  feqb := Reqb;
  of_int := IZR;
  fceil := fun x => Ok (Zceil x);
  fstr_eqb := Reqb
}.

(** Binary64.  [math.ceil] raises on a NaN and on an infinity. *)
Definition float_ceil (x : PrimFloat.float) : result Z :=
  match FloatOps.Prim2SF x with
  | SpecFloat.S754_zero _ => Ok 0%Z
  | SpecFloat.S754_infinity _ => Raise OverflowError
  | SpecFloat.S754_nan => Raise ValueError
  | SpecFloat.S754_finite s m e =>
      let num := if s then Z.neg m else Z.pos m in
      Ok (if (0 <=? e)%Z then (num * 2 ^ e)%Z else (- ((- num) / 2 ^ (- e)))%Z)
  end.

Definition float_of_int (n : Z) : PrimFloat.float :=
  if (n <? 0)%Z then PrimFloat.opp (PrimFloat.of_uint63 (Uint63.of_Z (- n)))
  else PrimFloat.of_uint63 (Uint63.of_Z n).

#[export] Instance Scalar_float : Scalar PrimFloat.float := {
  fzero := PrimFloat.zero;
  fone := PrimFloat.one;
  fadd := PrimFloat.add;
  fsub := PrimFloat.sub;
  fmul := PrimFloat.mul;
  fdiv := PrimFloat.div;
  fabs := PrimFloat.abs;
  fsqrt := PrimFloat.sqrt;
  fltb := PrimFloat.ltb;
  feqb := PrimFloat.eqb;
  of_int := float_of_int;
  fceil := float_ceil;
  fstr_eqb := PrimFloat.Leibniz.eqb
}.

(** ** NumPy and pandas operations on one-dimensional arrays *)

Module Np.
Section Arrays.
Context {F : Type} {num : Scalar F}.

(** [a - x] and [abs(a)], elementwise. *)
Definition sub_scalar (a : list F) (x : F) : list F := map (fun t => fsub t x) a.
Definition absolute (a : list F) : list F := map fabs a.

(** [a == x], elementwise. *)
Definition eq_scalar (a : list F) (x : F) : list bool := map (fun t => feqb t x) a.

(** The built-in [min]: the first least item; [ValueError] on no item. *)
Definition min (a : list F) : result F :=
  match a with
  | [] => Raise ValueError
  | x :: a' => Ok (fold_left (fun m y => if fltb y m then y else m) a' x)
  end.

(** [np.where(c)[0]], which is [np.nonzero(c)[0]]: the positions of the
    true entries, in order. *)
Fixpoint nonzero_from (i : nat) (c : list bool) : list nat :=
  match c with
  | [] => []
  | b :: c' => if b then i :: nonzero_from (S i) c' else nonzero_from (S i) c'
  end.

Definition nonzero (c : list bool) : list nat := nonzero_from 0 c.

(** [a.sum()], [a.mean()], [a.std()] (population standard deviation). *)
Definition sum (a : list F) : F := fold_left fadd a fzero.

Definition mean (a : list F) : F := fdiv (sum a) (of_int (Z.of_nat (length a))).

Definition std (a : list F) : F :=
  let m := mean a in
  fsqrt (mean (map (fun x => let d := fabs (fsub x m) in fmul d d) a)).

(** [np.diff(a)]. *)
Fixpoint diff (a : list F) : list F :=
  match a with
  | x :: ((y :: _) as a') => fsub y x :: diff a'
  | _ => []
  end.

(** [np.median(a)]: the middle of the sorted values, or the mean of the
    two middle ones. *)
Fixpoint insert_sorted (x : F) (l : list F) : list F :=
  match l with
  | [] => [x]
  | y :: l' => if fltb y x then y :: insert_sorted x l' else x :: l
  end.

Definition sort (a : list F) : list F := fold_right insert_sorted [] a.

Definition median (a : list F) : F :=
  let s := sort a in
  let n := length a in
  let nan := fdiv fzero fzero in
  if Nat.even n
  then fdiv (fadd (nth (n / 2 - 1) s nan) (nth (n / 2) s nan)) (of_int 2)
  else nth (n / 2) s nan.

End Arrays.
End Np.

(** ** The sampler *)

Section Sampler.
Context {F : Type} {num : Scalar F}.

(** [RatSession._sample]: the indices of the samples nearest to the start
    of the window, to the event and to the end of the window. *)
Definition _sample (time_array : list F) (event_time : F) (window : F * F)
  : result (nat * nat * nat) :=
  let start := fsub event_time (fst window) in
  let end_ := fadd event_time (snd window) in
  let dist x := Np.absolute (Np.sub_scalar time_array x) in
  m <- Np.min (dist start) ;;
  start_idx <- Py.first (Np.nonzero (Np.eq_scalar (dist start) m)) ;;
  m <- Np.min (dist event_time) ;;
  event_idx <- Py.first (Np.nonzero (Np.eq_scalar (dist event_time) m)) ;;
  m <- Np.min (dist end_) ;;
  end_idx <- Py.last (Np.nonzero (Np.eq_scalar (dist end_) m)) ;;
  Ok (start_idx, event_idx, end_idx).

End Sampler.

(** ** Data model *)

(** SciPy's routines, which the code calls and does not define:
    [integrate.simpson(y, x)], [stats.median_abs_deviation(a)] and
    [signal.savgol_filter(x, window_length, polyorder)]. *)
Class SciPy (F : Type) : Type := {
  simpson : list F -> list F -> result F;
  median_abs_deviation : list F -> result F;
  savgol_filter : list F -> Z -> Z -> result (list F)
}.

(** One sample of a recording, a row of the two-dimensional array:
    column 0 is the time, column 1 the signal, column 2 the control. *)
Record row (F : Type) : Type := { col0 : F; col1 : F; col2 : F }.

(** The fiber-recording collaborator ([fiber_data.FiberData]), as the
    session uses it: [_find_rec(t)] gives the numbers of the recordings
    that contain [t], [norm(rec, method)] a recording as an array. *)
Module FiberData.
Record t (F : Type) : Type := {
  filepath : string;
  alignement : F;
  _find_rec : F -> result (list nat);
  norm : nat -> string -> result (list (row F))
}.
End FiberData.

(** The behavioral collaborator ([behavioral_data.BehavioralData]):
    [events(recorded, window)] and [intervals(recorded, window)] map an
    event label to timestamps and to intervals.  They are queries: they
    may raise, and they leave the collaborator as it is. *)
Module BehavioralData.
Record t (F : Type) : Type := {
  filepath : string;
  rec_start : F;
  events : bool -> F * F -> result (list (string * list F));
  intervals : bool -> F * F -> result (list (string * list (F * F)))
}.
End BehavioralData.

Section DataModel.
Variable F : Type.

(** The attributes [analyze_perievent] sets on its [Analysis] object. *)
Record Analysis : Type := {
  event_time : F;
  fiberfile : string;
  behaviorfile : string;
  normalisation : string;
  rec_number : nat;
  window : F * F;
  recordingdata : list (row F);
  rawdata : list (row F);
  data : list (row F);
  raw_signal : list F;
  raw_control : list F;
  signal : list F;
  time : list F;
  sampling_rate : F;
  postevent : list F;
  pre_raw_sig : list F;
  post_raw_sig : list F;
  post_raw_ctrl : list F;
  post_time : list F;
  preevent : list F;
  pre_time : list F;
  zscores : list F;
  pre_zscores : list F;
  post_zscores : list F;
  rob_zscores : list F;
  pre_Rzscores : list F;
  post_Rzscores : list F;
  preAVG_Z : F;
  postAVG_Z : F;
  preAVG_RZ : F;
  postAVG_RZ : F;
  pre_raw_AUC : F;
  post_raw_AUC : F;
  preAUC : F;
  postAUC : F;
  preZ_AUC : F;
  postZ_AUC : F;
  preRZ_AUC : F;
  postRZ_AUC : F
}.

(** What the key [f'rec{rec_number}_{event_time}_{window}'] is built from. *)
Definition cache_key : Type := (nat * F * (F * F))%type.

(** A session.  [default_window] and [default_norm] are set by the base
    class [FiberPhotopy]. *)
Record RatSession : Type := {
  rat_ID : option string;
  behavior : BehavioralData.t F;
  fiber : FiberData.t F;
  analyses : list (cache_key * Analysis);
  analyzable_events : list (string * list F);
  recorded_intervals : list (string * list (F * F));
  default_window : F * F;
  default_norm : string
}.

(** The state a method runs in: the session and what was printed. *)
Record World : Type := { self : RatSession; stdout : list string }.

Definition M (A : Type) : Type := World -> result A * World.

Definition ret {A : Type} (a : A) : M A := fun w => (Ok a, w).

Definition mbind {A B : Type} (m : M A) (k : A -> M B) : M B :=
  fun w =>
    match m w with
    | (Ok a, w') => k a w'
    | (Raise e, w') => (Raise e, w')
    end.

Definition lift {A : Type} (r : result A) : M A := fun w => (r, w).

Definition print (s : string) : M unit :=
  fun w => (Ok tt, {| self := self w; stdout := stdout w ++ [s] |}).

Definition get_self : M RatSession := fun w => (Ok (self w), w).

Definition set_self (s : RatSession) : M unit :=
  fun w => (Ok tt, {| self := s; stdout := stdout w |}).

End DataModel.

Arguments ret {F A} a.
Arguments mbind {F A B} m k.
Arguments lift {F A} r.
Arguments print {F} s.
Arguments get_self {F}.
Arguments set_self {F} s.

Notation "x <~ e ;; k" := (mbind e (fun x => k))
  (at level 100, e at next level, right associativity).
Notation "e ;;; k" := (mbind e (fun _ => k))
  (at level 100, right associativity).

(** ** The session's methods *)

(** An argument of [__init__]: a collaborator, or the path of its file. *)
Inductive source (T : Type) : Type :=
| Object (o : T)
| Path (p : string).

Arguments Object {T} o.
Arguments Path {T} p.

Definition newline : string := String (ascii_of_nat 10) EmptyString.

Definition invalid_norm_message : string :=
  ("Invalid choice for signal normalisation !" ++ newline ++
   "Z-score differences: norm='Z'" ++ newline ++
   "delta F/f: stand='F'")%string.

Definition no_recording_message : string :=
  "No fiber recording at this timestamp"%string.

Section Session.
Context {F : Type} {num : Scalar F} {scipy : SciPy F}.

(** Two keys are the same string. *)
Definition key_eqb (k k' : cache_key F) : bool :=
  let '(r, t, (a, b)) := k in
  let '(r', t', (a', b')) := k' in
  Nat.eqb r r' && fstr_eqb t t' && fstr_eqb a a' && fstr_eqb b b'.

(** [d.update({k: v})] on a dictionary kept in insertion order. *)
Fixpoint dict_update {V : Type} (k : cache_key F) (v : V) (d : list (cache_key F * V))
  : list (cache_key F * V) :=
  match d with
  | [] => [(k, v)]
  | (k', v') :: d' =>
      if key_eqb k k' then (k, v) :: d' else (k', v') :: dict_update k v d'
  end.

(** Lines 52-59: the label of the selector; [None] is the [KeyError] of
    the lookup in [{'F': 'delta F/F', 'Z': 'Z-scores'}]. *)
Definition normalisation_label (s : RatSession F) (norm : string) : option string :=
  if String.eqb norm "default" then Some (default_norm s)
  else if String.eqb norm "F" then Some "delta F/F"%string
  else if String.eqb norm "Z" then Some "Z-scores"%string
  else None.

(** Lines 66-103: the window, its segments and their statistics, for the
    recording [rec_number].  [window] is [None] for ['default']. *)
Definition perievent (s : RatSession F) (event_time : F) (window : option (F * F))
    (norm : string) (normalisation : string) (rec_number : nat)
  : result (Analysis F) :=
  let window := match window with None => default_window s | Some w => w end in
  recordingdata <- FiberData.norm s.(fiber) rec_number norm ;;
  rawdata <- FiberData.norm s.(fiber) rec_number "raw" ;;
  idx <- _sample (map (@col0 F) recordingdata) event_time window ;;
  let '(start_idx, event_idx, end_idx) := idx in
  let lo := Some (Z.of_nat start_idx) in
  let hi := Some (Z.of_nat end_idx + 1)%Z in
  let data := Py.slice lo hi recordingdata in
  let raw_signal := map (@col1 F) (Py.slice lo hi rawdata) in
  let raw_control := map (@col2 F) (Py.slice lo hi rawdata) in
  let signal := map (@col1 F) data in
  let time := map (@col0 F) data in
  let sampling_rate := fdiv fone (Np.mean (Np.diff time)) in
  let k := (Z.of_nat end_idx - Z.of_nat event_idx)%Z in
  let postevent := map (@col1 F) (Py.from k data) in
  let pre_raw_sig := Py.upto k raw_signal in
  let post_raw_sig := Py.from k raw_signal in
  let post_raw_ctrl := Py.from k raw_control in
  let post_time := map (@col0 F) (Py.from k data) in
  let preevent := map (@col1 F) (Py.upto k data) in
  let pre_time := map (@col0 F) (Py.upto k data) in
  let zscores :=
    let m := Np.mean preevent in
    let sd := Np.std preevent in
    map (fun x => fdiv (fsub x m) sd) signal in
  let pre_zscores := Py.upto k zscores in
  let post_zscores := Py.from k zscores in
  mad <- median_abs_deviation preevent ;;
  let rob_zscores :=
    let med := Np.median preevent in
    map (fun x => fdiv (fsub x med) mad) signal in
  let pre_Rzscores := Py.upto k rob_zscores in
  let post_Rzscores := Py.from k rob_zscores in
  pre_raw_AUC <- simpson pre_raw_sig pre_time ;;
  post_raw_AUC <- simpson post_raw_sig post_time ;;
  preAUC <- simpson preevent pre_time ;;
  postAUC <- simpson postevent post_time ;;
  preZ_AUC <- simpson pre_zscores pre_time ;;
  postZ_AUC <- simpson post_zscores post_time ;;
  preRZ_AUC <- simpson pre_Rzscores pre_time ;;
  postRZ_AUC <- simpson post_Rzscores post_time ;;
  Ok {| event_time := event_time;
        fiberfile := FiberData.filepath s.(fiber);
        behaviorfile := BehavioralData.filepath s.(behavior);
        normalisation := normalisation;
        rec_number := rec_number;
        window := window;
        recordingdata := recordingdata;
        rawdata := rawdata;
        data := data;
        raw_signal := raw_signal;
        raw_control := raw_control;
        signal := signal;
        time := time;
        sampling_rate := sampling_rate;
        postevent := postevent;
        pre_raw_sig := pre_raw_sig;
        post_raw_sig := post_raw_sig;
        post_raw_ctrl := post_raw_ctrl;
        post_time := post_time;
        preevent := preevent;
        pre_time := pre_time;
        zscores := zscores;
        pre_zscores := pre_zscores;
        post_zscores := post_zscores;
        rob_zscores := rob_zscores;
        pre_Rzscores := pre_Rzscores;
        post_Rzscores := post_Rzscores;
        preAVG_Z := Np.mean pre_zscores;
        postAVG_Z := Np.mean post_zscores;
        preAVG_RZ := Np.mean pre_Rzscores;
        postAVG_RZ := Np.mean post_Rzscores;
        pre_raw_AUC := pre_raw_AUC;
        post_raw_AUC := post_raw_AUC;
        preAUC := preAUC;
        postAUC := postAUC;
        preZ_AUC := preZ_AUC;
        postZ_AUC := postZ_AUC;
        preRZ_AUC := preRZ_AUC;
        postRZ_AUC := postRZ_AUC |}.

(** Line 104: [self.analyses.update({key: res})]. *)
Definition cached (s : RatSession F) (res : Analysis F) : RatSession F :=
  {| rat_ID := rat_ID s;
     behavior := behavior s;
     fiber := fiber s;
     analyses :=
       dict_update (rec_number res, event_time res, window res) res (analyses s);
     analyzable_events := analyzable_events s;
     recorded_intervals := recorded_intervals s;
     default_window := default_window s;
     default_norm := default_norm s |}.

Definition remember (res : Analysis F) : M F unit :=
  s <~ get_self ;;
  set_self (cached s res).

(** [RatSession.analyze_perievent].  The returned [None] is Python's. *)
Definition analyze_perievent (event_time : F) (window : option (F * F)) (norm : string)
  : M F (option (Analysis F)) :=
  s <~ get_self ;;
  match normalisation_label s norm with
  | None => print invalid_norm_message ;;; ret None
  | Some normalisation =>
      match FiberData._find_rec s.(fiber) event_time with
      | Raise IndexError | Ok [] => print no_recording_message ;;; ret None
      | Raise e => lift (Raise e)
      | Ok (rec_number :: _) =>
          res <~ lift (perievent s event_time window norm normalisation rec_number) ;;
          remember res ;;;
          ret (Some res)
      end
  end.

(** The three assignments of [update_window] and of [__init__]. *)
Definition set_default_window (v : F * F) : M F unit :=
  s <~ get_self ;;
  set_self
    {| rat_ID := rat_ID s; behavior := behavior s; fiber := fiber s;
       analyses := analyses s;
       analyzable_events := analyzable_events s;
       recorded_intervals := recorded_intervals s;
       default_window := v;
       default_norm := default_norm s |}.

Definition set_analyzable_events (v : list (string * list F)) : M F unit :=
  s <~ get_self ;;
  set_self
    {| rat_ID := rat_ID s; behavior := behavior s; fiber := fiber s;
       analyses := analyses s;
       analyzable_events := v;
       recorded_intervals := recorded_intervals s;
       default_window := default_window s;
       default_norm := default_norm s |}.

Definition set_recorded_intervals (v : list (string * list (F * F))) : M F unit :=
  s <~ get_self ;;
  set_self
    {| rat_ID := rat_ID s; behavior := behavior s; fiber := fiber s;
       analyses := analyses s;
       analyzable_events := analyzable_events s;
       recorded_intervals := v;
       default_window := default_window s;
       default_norm := default_norm s |}.

(** [RatSession.update_window]. *)
Definition update_window (new_window : F * F) : M F unit :=
  set_default_window new_window ;;;
  s <~ get_self ;;
  ev <~ lift (BehavioralData.events (behavior s) true (default_window s)) ;;
  set_analyzable_events ev ;;;
  s <~ get_self ;;
  iv <~ lift (BehavioralData.intervals (behavior s) true (default_window s)) ;;
  set_recorded_intervals iv.

(** [RatSession.__init__].  The constructors of the collaborators and
    the defaults set by the base class [FiberPhotopy] are parameters. *)
Record Loaders : Type := {
  load_behavior : string -> result (BehavioralData.t F);
  load_fiber : string -> F -> result (FiberData.t F)
}.

Definition RatSession_init (ld : Loaders) (behavior : source (BehavioralData.t F))
    (fiber : source (FiberData.t F)) (rat_ID : option string)
    (default_window : F * F) (default_norm : string) : result (RatSession F) :=
  behavior <- match behavior with
              | Object b => Ok b
              | Path p => load_behavior ld p
              end ;;
  fiber <- match fiber with
           | Object f =>
               if feqb (FiberData.alignement f) (BehavioralData.rec_start behavior)
               then Ok f
               else load_fiber ld (FiberData.filepath f)
                               (BehavioralData.rec_start behavior)
           | Path p => load_fiber ld p (BehavioralData.rec_start behavior)
           end ;;
  analyzable_events <- BehavioralData.events behavior true default_window ;;
  recorded_intervals <- BehavioralData.intervals behavior true default_window ;;
  Ok {| rat_ID := rat_ID;
        behavior := behavior;
        fiber := fiber;
        analyses := [];
        analyzable_events := analyzable_events;
        recorded_intervals := recorded_intervals;
        default_window := default_window;
        default_norm := default_norm |}.

End Session.

(** ** Smoothing *)

Module Pandas.
Section Rolling.
Context {F : Type} {num : Scalar F}.

(** [pd.Series(a).rolling(window=w).mean()]: entry [i] is the mean of the
    [w] values ending at [i], and NaN while fewer than [w] values are
    available; a negative [w] is refused. *)
Definition rolling_mean (w : Z) (a : list F) : result (list F) :=
  if (w <? 0)%Z then Raise ValueError
  else
    let wn := Z.to_nat w in
    Ok (map (fun i =>
               if S i <? wn then fdiv fzero fzero
               else Np.mean (firstn wn (skipn (S i - wn) a)))
            (seq 0 (length a))).

End Rolling.
End Pandas.

(** The [data] and [window] arguments of [smooth] are a string or a value. *)
Inductive data_arg (F : Type) : Type :=
| DataName (name : string)
| DataArray (a : list F).

Inductive window_arg : Type :=
| WindowStr (s : string)
| WindowInt (w : Z).

Arguments DataName {F} name.
Arguments DataArray {F} a.

(** What [smooth] returns: a two-column array of (time, value) rows when
    [add_time] holds, the smoothed series otherwise. *)
Inductive smoothed (F : Type) : Type :=
| WithTime (rows : list (F * F))
| Series (a : list F).

Arguments WithTime {F} rows.
Arguments Series {F} a.

Section Smooth.
Context {F : Type} {num : Scalar F} {scipy : SciPy F}.

(** [float(s)] for decimal notation: an optional sign, then digits with
    an optional fraction, at least one digit in all.  The other notations
    [float] reads (exponents, infinities, NaN, underscores, surrounding
    blanks) are refused here with [ValueError], like every other string. *)
Definition digit (c : ascii) : option Z :=
  let n := nat_of_ascii c in
  if (48 <=? n) && (n <=? 57) then Some (Z.of_nat (n - 48)) else None.

Fixpoint digits (acc : Z) (count : nat) (s : string) : Z * nat * string :=
  match s with
  | EmptyString => (acc, count, EmptyString)
  | String c s' =>
      match digit c with
      | Some d => digits (acc * 10 + d)%Z (S count) s'
      | None => (acc, count, s)
      end
  end.

Definition unsigned_of_string (s : string) : result F :=
  let '(whole, n, rest) := digits 0 0 s in
  match rest with
  | EmptyString => if Nat.eqb n 0 then Raise ValueError else Ok (of_int whole)
  | String "."%char frac =>
      let '(num, k, rest') := digits whole 0 frac in
      match rest' with
      | EmptyString =>
          if Nat.eqb (n + k) 0 then Raise ValueError
          else Ok (fdiv (of_int num) (of_int (10 ^ Z.of_nat k)))
      | _ => Raise ValueError
      end
  | _ => Raise ValueError
  end.

Definition float_of_string (s : string) : result F :=
  match s with
  | String "-"%char s' => x <- unsigned_of_string s' ;; Ok (fmul (of_int (-1)) x)
  | String "+"%char s' => unsigned_of_string s'
  | _ => unsigned_of_string s
  end.

(** [s[-2:]] and [s[:-2]]. *)
Definition last_two (s : string) : string :=
  String.substring (String.length s - 2) 2 s.

Definition but_last_two (s : string) : string :=
  String.substring 0 (String.length s - 2) s.

(** [self.__dict__[name]] for the names of the one-dimensional arrays.
    A name of another attribute is no series; the filters refuse it, which
    is recorded as [TypeError].  An unknown name is a [KeyError]. *)
Definition series_attributes (a : Analysis F) : list (string * list F) :=
  [ ("raw_signal", raw_signal a); ("raw_control", raw_control a);
    ("signal", signal a); ("time", time a); ("postevent", postevent a);
    ("pre_raw_sig", pre_raw_sig a); ("post_raw_sig", post_raw_sig a);
    ("post_raw_ctrl", post_raw_ctrl a); ("post_time", post_time a);
    ("preevent", preevent a); ("pre_time", pre_time a);
    ("zscores", zscores a); ("pre_zscores", pre_zscores a);
    ("post_zscores", post_zscores a); ("rob_zscores", rob_zscores a);
    ("pre_Rzscores", pre_Rzscores a); ("post_Rzscores", post_Rzscores a) ]%string.

Definition other_attributes : list string :=
  [ "event_time"; "fiberfile"; "behaviorfile"; "normalisation"; "rec_number";
    "window"; "recordingdata"; "rawdata"; "data"; "sampling_rate";
    "preAVG_Z"; "postAVG_Z"; "preAVG_RZ"; "postAVG_RZ";
    "pre_raw_AUC"; "post_raw_AUC"; "preAUC"; "postAUC";
    "preZ_AUC"; "postZ_AUC"; "preRZ_AUC"; "postRZ_AUC" ]%string.

Definition lookup_series (a : Analysis F) (name : string) : result (list F) :=
  match find (fun kv => String.eqb (fst kv) name) (series_attributes a) with
  | Some (_, v) => Ok v
  | None =>
      if existsb (String.eqb name) other_attributes then Raise TypeError
      else Raise KeyError
  end.

(** Lines 178-182: a window given as a string becomes a sample count when
    it ends in ['ms'] or is ['default'], and stays a string otherwise. *)
Definition resolve_window (a : Analysis F) (window : window_arg) : result window_arg :=
  match window with
  | WindowInt w => Ok (WindowInt w)
  | WindowStr s =>
      if String.eqb (last_two s) "ms" then
        x <- float_of_string (but_last_two s) ;;
        w <- fceil (fmul (fdiv x (of_int 1000)) (sampling_rate a)) ;;
        Ok (WindowInt w)
      else if String.eqb s "default" then
        w <- fceil (fdiv (sampling_rate a) (of_int 4)) ;;
        Ok (WindowInt w)
      else Ok (WindowStr s)
  end.

(** [np.vstack((t, v)).T]: both rows must have one length. *)
Definition vstack_T (t v : list F) : result (list (F * F)) :=
  if Nat.eqb (length t) (length v) then Ok (combine t v) else Raise ValueError.

(** Lines 176-177: data given by name is looked up on the object. *)
Definition resolve_data (a : Analysis F) (data : data_arg F) : result (list F) :=
  match data with
  | DataName name => lookup_series a name
  | DataArray d => Ok d
  end.

(** [Analysis.smooth]. *)
Definition smooth (a : Analysis F) (data : data_arg F) (method : string)
    (window : window_arg) (polyorder : Z) (add_time : bool) : result (smoothed F) :=
  data <- resolve_data a data ;;
  window <- resolve_window a window ;;
  if String.eqb method "savgol" then
    match window with
    | WindowStr _ => Raise TypeError (* [window % 2] on a string *)
    | WindowInt w =>
        let w := if (w mod 2 =? 0)%Z then (w + 1)%Z else w in
        sm <- savgol_filter data w polyorder ;;
        if add_time then
          rows <- vstack_T (time a) sm ;;
          Ok (WithTime rows)
        else Ok (Series sm)
    end
  else if String.eqb method "rolling" then
    match window with
    | WindowStr _ => Raise ValueError (* pandas refuses the offset *)
    | WindowInt w =>
        r <- Pandas.rolling_mean w data ;;
        let sm := Py.from (w - 1) r in
        if add_time then
          rt <- Pandas.rolling_mean w (time a) ;;
          rows <- vstack_T (Py.from (w - 1) rt) sm ;;
          Ok (WithTime rows)
        else Ok (Series sm)
    end
  else Raise UnboundLocalError.

End Smooth.

(** ** A reference instance of the SciPy interface

    Written from SciPy's documentation, for running the pipeline on
    concrete recordings.  The general results below hold for every
    instance of [SciPy]. *)

Module SciPyRef.
Section Ref.
Context {F : Type} {num : Scalar F}.

(** Simpson's rule on consecutive pairs of intervals of unequal width. *)
Fixpoint basic_simpson (y x : list F) : F :=
  match y, x with
  | y0 :: y1 :: ((y2 :: _) as yr), x0 :: x1 :: ((x2 :: _) as xr) =>
      let h0 := fsub x1 x0 in
      let h1 := fsub x2 x1 in
      let hsum := fadd h0 h1 in
      let two := of_int 2 in
      let panel :=
        fmul (fdiv hsum (of_int 6))
          (fadd (fadd (fmul y0 (fsub two (fdiv h1 h0)))
                      (fmul y1 (fdiv (fmul hsum hsum) (fmul h0 h1))))
                (fmul y2 (fsub two (fdiv h0 h1)))) in
      fadd panel (basic_simpson yr xr)
  | _, _ => fzero
  end.

Definition trapezoid (y0 y1 x0 x1 : F) : F :=
  fmul (fmul (fdiv fone (of_int 2)) (fsub x1 x0)) (fadd y0 y1).

(** [integrate.simpson(y, x)]: an odd number of samples is integrated by
    the composite rule; an even number by the average of the rule on the
    first and on the last [N - 1] samples, each completed by a trapezoid
    (the default [even='avg'] of SciPy up to 1.10); two samples give a
    trapezoid, one sample 0, and no sample an [IndexError]. *)
Definition simpson_ref (y x : list F) : result F :=
  if negb (Nat.eqb (length x) (length y)) then Raise ValueError
  else
    match y, x with
    | [], _ => Raise IndexError
    | y0 :: y', x0 :: x' =>
        if Nat.even (length y) then
          let nan := fdiv fzero fzero in
          let n := length y in
          let first := trapezoid y0 (nth 1 y nan) x0 (nth 1 x nan) in
          let last :=
            trapezoid (nth (n - 2) y nan) (nth (n - 1) y nan)
                      (nth (n - 2) x nan) (nth (n - 1) x nan) in
          Ok (fadd (fdiv (fadd (basic_simpson y x) (basic_simpson y' x')) (of_int 2))
                   (fdiv (fadd last first) (of_int 2)))
        else Ok (basic_simpson y x)
    | _ :: _, [] => Raise ValueError
    end.

(** [stats.median_abs_deviation(a)], with the default scale 1. *)
Definition mad_ref (a : list F) : result F :=
  let med := Np.median a in
  Ok (Np.median (map (fun x => fabs (fsub x med)) a)).

(** Least-squares polynomial fit on the abscissae 0, 1, 2, ... by the
    normal equations, solved by elimination. *)
Fixpoint fpow (x : F) (n : nat) : F :=
  match n with
  | O => fone
  | S n' => fmul x (fpow x n')
  end.

Definition dot (u v : list F) : F :=
  Np.sum (map (fun p => fmul (fst p) (snd p)) (combine u v)).

Fixpoint solve (n : nat) (rows : list (list F * F)) : list F :=
  match n, rows with
  | S n', (p :: cs, b) :: rest =>
      let reduce (r : list F * F) :=
        match r with
        | (q :: ds, c) =>
            let f := fdiv q p in
            (map (fun pr => fsub (snd pr) (fmul f (fst pr))) (combine cs ds),
             fsub c (fmul f b))
        | ([], c) => ([], c)
        end in
      let sol := solve n' (map reduce rest) in
      fdiv (fsub b (dot cs sol)) p :: sol
  | _, _ => []
  end.

Definition polyfit (ys : list F) (p : nat) : list F :=
  let xs := map (fun i => of_int (Z.of_nat i)) (seq 0 (length ys)) in
  let pows := seq 0 (S p) in
  solve (S p)
    (map (fun j =>
            (map (fun k => Np.sum (map (fun x => fpow x (j + k)) xs)) pows,
             Np.sum (map (fun xy => fmul (fpow (fst xy) j) (snd xy)) (combine xs ys))))
         pows).

Definition polyval (c : list F) (x : F) : F :=
  fold_right (fun a acc => fadd a (fmul x acc)) fzero c.

(** [signal.savgol_filter(x, w, p)] in its default mode ['interp']: each
    value is replaced by the value there of the polynomial of degree [p]
    fitted to the window of [w] samples around it, the first and the last
    window serving the edges.  Refused unless [0 <= p < w <= len(x)]. *)
Definition savgol_ref (x : list F) (w p : Z) : result (list F) :=
  if ((0 <=? p) && (p <? w) && (w <=? Z.of_nat (length x)))%Z then
    let n := length x in
    let wn := Z.to_nat w in
    let m := wn / 2 in
    Ok (map (fun i =>
               let lo := if i <? m then 0 else if n - m <=? i then n - wn else i - m in
               polyval (polyfit (firstn wn (skipn lo x)) (Z.to_nat p))
                       (of_int (Z.of_nat (i - lo))))
            (seq 0 n))
  else Raise ValueError.

#[export] Instance SciPy_ref : SciPy F := {
  simpson := simpson_ref;
  median_abs_deviation := mad_ref;
  savgol_filter := savgol_ref
}.

End Ref.
End SciPyRef.

(** ** Collaborators for concrete sessions *)

Section Collaborators.
Context {F : Type} {num : Scalar F}.

Definition contains_time (rows : list (row F)) (t : F) : bool :=
  match rows with
  | [] => false
  | r :: _ => negb (fltb t (col0 r)) && negb (fltb (col0 (List.last rows r)) t)
  end.

(** Modelled from the spec: [find_recording(timestamp)] of the
    fiber-recording collaborator, whose module [fiber_data] is not part of
    the sources.  It yields the numbers of the recordings whose time span
    contains the timestamp, none when no recording does. *)
Definition find_recording (recordings : list (nat * list (row F))) (t : F)
  : result (list nat) :=
  Ok (map fst (filter (fun r => contains_time (snd r) t) recordings)).

(** Modelled from the spec: [normalize(recording_index, method)] of the
    same collaborator.  ['raw'] passes the channels through, ['F'] is
    (signal - baseline) / baseline with the control channel as baseline,
    ['Z'] the z-score of the signal over the recording; another selector
    fails with InvalidNormalization. *)
Definition normalize (recordings : list (nat * list (row F))) (rec : nat)
    (method : string) : result (list (row F)) :=
  match find (fun r => Nat.eqb (fst r) rec) recordings with
  | None => Raise KeyError
  | Some (_, rows) =>
      if String.eqb method "raw" then Ok rows
      else if String.eqb method "F" then
        Ok (map (fun r => {| col0 := col0 r;
                             col1 := fdiv (fsub (col1 r) (col2 r)) (col2 r);
                             col2 := col2 r |}) rows)
      else if String.eqb method "Z" then
        let s := map (@col1 F) rows in
        Ok (map (fun r => {| col0 := col0 r;
                             col1 := fdiv (fsub (col1 r) (Np.mean s)) (Np.std s);
                             col2 := col2 r |}) rows)
      else Raise (UserError "InvalidNormalization")
  end.

Definition fiber_of (path : string) (recordings : list (nat * list (row F)))
  : FiberData.t F :=
  {| FiberData.filepath := path;
     FiberData.alignement := fzero;
     FiberData._find_rec := find_recording recordings;
     FiberData.norm := normalize recordings |}.

(** Modelled from the spec: the event mapping of the behavioral
    collaborator, whose module [behavioral_data] is not part of the
    sources.  It gives, per event label, the timestamps whose window lies
    within the recorded span [lo, hi]; this source has no intervals. *)
Definition behavior_of (path : string) (lo hi : F) (stamps : list (string * list F))
  : BehavioralData.t F :=
  {| BehavioralData.filepath := path;
     BehavioralData.rec_start := lo;
     BehavioralData.events := fun _ w =>
       Ok (map (fun kv =>
                  (fst kv,
                   filter (fun t => negb (fltb (fsub t (fst w)) lo)
                                    && negb (fltb hi (fadd t (snd w)))) (snd kv)))
               stamps);
     BehavioralData.intervals := fun _ _ => Ok [] |}.

End Collaborators.

(** ** A concrete session

    One recording, numbered 1, of ten samples at 1 Hz with a constant
    control channel. *)

Definition demo_rows : list (row float) :=
  map (fun p => {| col0 := fst p; col1 := snd p; col2 := 1%float |})
      [ (0, 2); (1, 3); (2, 2); (3, 4); (4, 2);
        (5, 5); (6, 3); (7, 6); (8, 2); (9, 4) ]%float.

Definition demo_behavior : BehavioralData.t float :=
  behavior_of "behavior.dat" 0%float 9%float [("lever"%string, [3; 5]%float)].

Definition demo_fiber : FiberData.t float := fiber_of "fiber.csv" [(1, demo_rows)].

Definition demo_session : RatSession float :=
  {| rat_ID := Some "rat1"%string;
     behavior := demo_behavior;
     fiber := demo_fiber;
     analyses := [];
     analyzable_events := [("lever"%string, [3; 5]%float)];
     recorded_intervals := [];
     default_window := (1, 1)%float;
     default_norm := "F" |}.

Definition demo_world : World float := {| self := demo_session; stdout := [] |}.

(** The session over the reals: one recording of five samples at 1 Hz,
    with a default window of 2 s before and 2 s after the event. *)

Section RampSession.
Local Open Scope R_scope.

Definition ramp_rows : list (row R) :=
  map (fun p => {| col0 := fst p; col1 := snd p; col2 := 1 |})
      [ (0, 1); (1, 3); (2, 2); (3, 4); (4, 2) ].

Definition ramp_session : RatSession R :=
  {| rat_ID := None;
     behavior := behavior_of "behavior.dat" 0 4 [("lever"%string, [2])];
     fiber := fiber_of "fiber.csv" [(1%nat, ramp_rows)];
     analyses := [];
     analyzable_events := [("lever"%string, [2])];
     recorded_intervals := [];
     default_window := (2, 2);
     default_norm := "F" |}.

Definition ramp_world : World R := {| self := ramp_session; stdout := [] |}.

Definition ramp_dff : list (row R) :=
  [ {| col0 := 0; col1 := (1 - 1) / 1; col2 := 1 |};
    {| col0 := 1; col1 := (3 - 1) / 1; col2 := 1 |};
    {| col0 := 2; col1 := (2 - 1) / 1; col2 := 1 |};
    {| col0 := 3; col1 := (4 - 1) / 1; col2 := 1 |};
    {| col0 := 4; col1 := (2 - 1) / 1; col2 := 1 |} ].

End RampSession.

(** The event at 3 s of the binary64 session, with 1 s before and 3 s
    after it, analysed with the reference instance of SciPy. *)
Definition demo_asymmetric : result (option (Analysis float)) * World float :=
  analyze_perievent (scipy := SciPyRef.SciPy_ref) 3%float (Some (1, 3)%float) "F"
    demo_world.

(** The event at 5 s of the binary64 session, with 3 s before and 2 s
    after it. *)
Definition demo_late_event : result (option (Analysis float)) * World float :=
  analyze_perievent (scipy := SciPyRef.SciPy_ref) 5%float (Some (3, 2)%float) "F"
    demo_world.

(** The binary64 session after the event at 3 s was analysed with the
    default window. *)
Definition demo_after_first : World float :=
  snd (analyze_perievent (scipy := SciPyRef.SciPy_ref) 3%float None "F" demo_world).

(** A session whose only recording has no sample. *)
Definition hollow_fiber : FiberData.t float :=
  {| FiberData.filepath := "empty.csv";
     FiberData.alignement := 0%float;
     FiberData._find_rec := fun _ => Ok [1];
     FiberData.norm := fun _ _ => Ok [] |}.

Definition hollow_world : World float :=
  {| self :=
       {| rat_ID := None;
          behavior := demo_behavior;
          fiber := hollow_fiber;
          analyses := [];
          analyzable_events := [];
          recorded_intervals := [];
          default_window := (1, 1)%float;
          default_norm := "F" |};
     stdout := [] |}.

(** ** Vocabulary of the properties *)

Section Vocabulary.
Local Open Scope R_scope.

(** [i] is an index of [times] whose value is nearest to [x]. *)
Definition nearest (times : list R) (x : R) (i : nat) : Prop :=
  (i < length times)%nat /\
  forall j, (j < length times)%nat ->
            Rabs (nth i times 0 - x) <= Rabs (nth j times 0 - x).

(** The time axis of a recording: each sample is later than the one
    before. *)
Definition strictly_increasing (times : list R) : Prop :=
  forall i j, (i < j < length times)%nat -> nth i times 0 < nth j times 0.

End Vocabulary.

(** A call fails with the exception class [name]. *)
Definition fails_with {F A : Type} (name : string) (r : result A * World F) : Prop :=
  fst r = Raise (UserError name).

Section WorldVocabulary.
Context {F : Type} {num : Scalar F}.

(** The world after a message was printed and nothing else changed. *)
Definition printed (w : World F) (msg : string) : World F :=
  {| self := self w; stdout := stdout w ++ [msg] |}.

(** The mean of the [w] values that start at position [j]. *)
Definition window_mean (w : nat) (a : list F) (j : nat) : F :=
  Np.mean (firstn w (skipn j a)).

End WorldVocabulary.

(** ** The attributes of a result, by name *)

(** The value of an attribute: a float, a string, the number of a
    recording, the window, or an array of one or of two dimensions. *)
Inductive attribute (F : Type) : Type :=
| Number (x : F)
| Text (s : string)
| Count (n : nat)
| Window (w : F * F)
| Array1 (a : list F)
| Array2 (a : list (row F)).

Arguments Number {F} x.
Arguments Text {F} s.
Arguments Count {F} n.
Arguments Window {F} w.
Arguments Array1 {F} a.
Arguments Array2 {F} a.

Section Attributes.
Context {F : Type}.

(** [self.__dict__] of a result: the attributes in the order in which
    [analyze_perievent] sets them. *)
Definition __dict__ (a : Analysis F) : list (string * attribute F) :=
  [ ("event_time", Number (event_time a));
    ("fiberfile", Text (fiberfile a));
    ("behaviorfile", Text (behaviorfile a));
    ("normalisation", Text (normalisation a));
    ("rec_number", Count (rec_number a));
    ("window", Window (window a));
    ("recordingdata", Array2 (recordingdata a));
    ("rawdata", Array2 (rawdata a));
    ("data", Array2 (data a));
    ("raw_signal", Array1 (raw_signal a));
    ("raw_control", Array1 (raw_control a));
    ("signal", Array1 (signal a));
    ("time", Array1 (time a));
    ("sampling_rate", Number (sampling_rate a));
    ("postevent", Array1 (postevent a));
    ("pre_raw_sig", Array1 (pre_raw_sig a));
    ("post_raw_sig", Array1 (post_raw_sig a));
    ("post_raw_ctrl", Array1 (post_raw_ctrl a));
    ("post_time", Array1 (post_time a));
    ("preevent", Array1 (preevent a));
    ("pre_time", Array1 (pre_time a));
    ("zscores", Array1 (zscores a));
    ("pre_zscores", Array1 (pre_zscores a));
    ("post_zscores", Array1 (post_zscores a));
    ("rob_zscores", Array1 (rob_zscores a));
    ("pre_Rzscores", Array1 (pre_Rzscores a));
    ("post_Rzscores", Array1 (post_Rzscores a));
    ("preAVG_Z", Number (preAVG_Z a));
    ("postAVG_Z", Number (postAVG_Z a));
    ("preAVG_RZ", Number (preAVG_RZ a));
    ("postAVG_RZ", Number (postAVG_RZ a));
    ("pre_raw_AUC", Number (pre_raw_AUC a));
    ("post_raw_AUC", Number (post_raw_AUC a));
    ("preAUC", Number (preAUC a));
    ("postAUC", Number (postAUC a));
    ("preZ_AUC", Number (preZ_AUC a));
    ("postZ_AUC", Number (postZ_AUC a));
    ("preRZ_AUC", Number (preRZ_AUC a));
    ("postRZ_AUC", Number (postRZ_AUC a)) ]%string.

(** [d[name]] on a dictionary: the value of the first entry of that key. *)
Definition getitem {V : Type} (d : list (string * V)) (name : string) : result V :=
  match find (fun kv => String.eqb (fst kv) name) d with
  | Some (_, v) => Ok v
  | None => Raise KeyError
  end.

(** [Analysis.__repr__]. *)
Definition __repr__ (a : Analysis F) : string :=
  String.concat newline (map (fun kv => ("<obj>." ++ fst kv)%string) (__dict__ a)).

(** [len(v)] of an attribute that is an [ndarray]. *)
Definition ndarray_len (v : attribute F) : option nat :=
  match v with
  | Array1 a => Some (length a)
  | Array2 a => Some (length a)
  | _ => None
  end.

(** The list [l] of [Analysis._possible_data], before its names are
    quoted: the names of the arrays that are as long as [self.time]. *)
Definition possible_names (a : Analysis F) : list string :=
  map fst
    (filter (fun kv =>
               match ndarray_len (snd kv) with
               | Some n => Nat.eqb n (length (time a))
               | None => false
               end)
            (__dict__ a)).

(** [Analysis._possible_data]. *)
Definition _possible_data (a : Analysis F) : string :=
  String.concat newline (map (fun k => ("'" ++ k ++ "'")%string) (possible_names a)).

End Attributes.

(** ** Plotting the events of a session *)

(** What [RatSession.plot] hands to the figure: the timestamps of one
    event label, or the intervals of one. *)
Inductive plotted (F : Type) : Type :=
| Stamps (v : list F)
| Spans (v : list (F * F)).

Arguments Stamps {F} v.
Arguments Spans {F} v.

Definition choose_message : string := "Choose either 'intervals' or 'events'"%string.

Section Plot.
Context {F : Type}.

(** [{k: v for k, v in d.items() if v.size > 0}]. *)
Definition non_empty {V : Type} (d : list (string * list V)) : list (string * list V) :=
  filter (fun kv => negb (Nat.eqb (length (snd kv)) 0)) d.

(** [RatSession.plot].  [figure] is the method of the behavioral
    collaborator that draws; for a [what] that is neither ['events'] nor
    ['intervals'] the name [data] is unbound when the arguments of the
    call are evaluated. *)
Definition RatSession_plot
    (figure : list (plotted F) -> list string -> M F unit) (what : string)
  : M F unit :=
  s <~ get_self ;;
  if String.eqb what "events" then
    let data := non_empty (analyzable_events s) in
    figure (map (fun kv => Stamps (snd kv)) data) (map fst data)
  else if String.eqb what "intervals" then
    let data := non_empty (recorded_intervals s) in
    figure (map (fun kv => Spans (snd kv)) data) (map fst data)
  else
    print choose_message ;;;
    lift (Raise UnboundLocalError).

End Plot.


(** ** Collaborators for the further properties *)

(** A fiber source aligned on 5 s, where the behavioral source of the
    concrete session starts at 0 s, and constructors that build the
    sources of the concrete session from a path. *)
Definition shifted_fiber : FiberData.t float :=
  {| FiberData.filepath := "fiber.csv";
     FiberData.alignement := 5%float;
     FiberData._find_rec := find_recording [(1, demo_rows)];
     FiberData.norm := normalize [(1, demo_rows)] |}.

Definition demo_loaders : @Loaders float :=
  {| load_behavior := fun p =>
       Ok (behavior_of p 0%float 9%float [("lever"%string, [3; 5]%float)]);
     load_fiber := fun p a =>
       Ok {| FiberData.filepath := p;
             FiberData.alignement := a;
             FiberData._find_rec := find_recording [(1, demo_rows)];
             FiberData.norm := normalize [(1, demo_rows)] |} |}.

(** A figure method that draws nothing. *)
Definition blank_figure {F : Type} (obj : list (plotted F)) (label_list : list string)
  : M F unit := ret tt.

(** The result of the analysis of the event at 3 s with 1 s before and
    3 s after it; [None], which does not occur, is replaced by the result
    of an empty window. *)
Definition demo_result : Analysis float :=
  match fst demo_asymmetric with
  | Ok (Some res) => res
  | _ =>
      {| event_time := 0%float; fiberfile := ""%string; behaviorfile := ""%string;
         normalisation := ""%string; rec_number := 0; window := (0, 0)%float;
         recordingdata := []; rawdata := []; data := [];
         raw_signal := []; raw_control := []; signal := []; time := [];
         sampling_rate := 0%float; postevent := []; pre_raw_sig := [];
         post_raw_sig := []; post_raw_ctrl := []; post_time := [];
         preevent := []; pre_time := []; zscores := []; pre_zscores := [];
         post_zscores := []; rob_zscores := []; pre_Rzscores := [];
         post_Rzscores := []; preAVG_Z := 0%float; postAVG_Z := 0%float;
         preAVG_RZ := 0%float; postAVG_RZ := 0%float; pre_raw_AUC := 0%float;
         post_raw_AUC := 0%float; preAUC := 0%float; postAUC := 0%float;
         preZ_AUC := 0%float; postZ_AUC := 0%float; preRZ_AUC := 0%float;
         postRZ_AUC := 0%float |}
  end.

(** ** The distances the sampler compares *)

Section Distances.
Context {F : Type} {num : Scalar F}.

(** [abs(time_array - x)], as the sampler computes it. *)
Definition distances (time_array : list F) (x : F) : list F :=
  Np.absolute (Np.sub_scalar time_array x).

(** On the values of [l], [<] is a strict weak order and [==] is its
    equivalence: what holds of binary64 values none of which is a NaN,
    and of every list of reals. *)
Record comparable (l : list F) : Prop := {
  lt_asym : forall x y, In x l -> In y l -> fltb x y = true -> fltb y x = false;
  lt_negtrans : forall x y z, In x l -> In y l -> In z l ->
                fltb x y = false -> fltb y z = false -> fltb x z = false;
  eq_incomparable : forall x y, In x l -> In y l ->
                    (feqb x y = true <-> fltb x y = false /\ fltb y x = false)
}.

(** [i] is an index of [dist] that no other value of [dist] is less
    than. *)
Definition least_at (dist : list F) (i : nat) : Prop :=
  i < length dist /\
  forall j, j < length dist -> fltb (nth j dist fzero) (nth i dist fzero) = false.

Definition first_least_at (dist : list F) (i : nat) : Prop :=
  least_at dist i /\ forall j, least_at dist j -> i <= j.

Definition last_least_at (dist : list F) (i : nat) : Prop :=
  least_at dist i /\ forall j, least_at dist j -> j <= i.

(** The computed distances to an earlier target [x] and to a later
    target [y] agree on every two samples: a later sample that is nearer
    to the earlier target is nearer to the later target, and an earlier
    sample that is nearer to the later target is nearer to the earlier
    target. *)
Definition coherent (time_array : list F) (x y : F) : Prop :=
  forall i j, i < j < length time_array ->
    (fltb (nth j (distances time_array x) fzero) (nth i (distances time_array x) fzero)
       = true ->
     fltb (nth j (distances time_array y) fzero) (nth i (distances time_array y) fzero)
       = true) /\
    (fltb (nth i (distances time_array y) fzero) (nth j (distances time_array y) fzero)
       = true ->
     fltb (nth i (distances time_array x) fzero) (nth j (distances time_array x) fzero)
       = true).

(** The same, decided on a given array. *)
Definition coherentb (time_array : list F) (x y : F) : bool :=
  let dx := distances time_array x in
  let dy := distances time_array y in
  forallb
    (fun j =>
       forallb
         (fun i =>
            implb (fltb (nth j dx fzero) (nth i dx fzero))
                  (fltb (nth j dy fzero) (nth i dy fzero)) &&
            implb (fltb (nth i dy fzero) (nth j dy fzero))
                  (fltb (nth i dx fzero) (nth j dx fzero)))
         (seq 0 j))
    (seq 0 (length time_array)).

End Distances.

(** ** Binary64 values, exactly *)

(** The rational number a binary64 value stands for; none for an
    infinity and for a NaN. *)
Definition exact (x : PrimFloat.float) : option QArith_base.Q :=
  match FloatOps.Prim2SF x with
  | SpecFloat.S754_zero _ => Some (QArith_base.inject_Z 0)
  | SpecFloat.S754_finite s m e =>
      Some (QArith_base.Qmult
              (QArith_base.inject_Z (if s then Z.neg m else Z.pos m))
              (QArith_base.Qpower (QArith_base.inject_Z 2) e))
  | _ => None
  end.

(** [|t - x|] in exact arithmetic is less than [|t' - x|]. *)
Definition exactly_nearer (t t' x : PrimFloat.float) : Prop :=
  match exact t, exact t', exact x with
  | Some a, Some b, Some c =>
      QArith_base.Qlt (Qabs.Qabs (QArith_base.Qminus a c))
                      (Qabs.Qabs (QArith_base.Qminus b c))
  | _, _, _ => False
  end.

(** The place of a binary64 value other than a NaN in the order of
    binary64: its class, then its exponent, then its mantissa, compared
    in this order. *)
Definition rank (f : SpecFloat.spec_float) : Z * Z * Z :=
  match f with
  | SpecFloat.S754_zero _ => (0, 0, 0)%Z
  | SpecFloat.S754_infinity s => (if s then (-2)%Z else 2%Z, 0%Z, 0%Z)
  | SpecFloat.S754_nan => (0, 0, 0)%Z
  | SpecFloat.S754_finite s m e =>
      if s then ((-1)%Z, (- e)%Z, Z.neg m) else (1%Z, e, Z.pos m)
  end.

Definition lex_compare (p q : Z * Z * Z) : comparison :=
  let '(a, b, c) := p in
  let '(a', b', c') := q in
  match (a ?= a')%Z with
  | Eq => match (b ?= b')%Z with Eq => (c ?= c')%Z | r => r end
  | r => r
  end.

Definition lex_lt (p q : Z * Z * Z) : Prop :=
  let '(a, b, c) := p in
  let '(a', b', c') := q in
  (a < a' \/ (a = a' /\ (b < b' \/ (b = b' /\ c < c'))))%Z.

(** ** Simpson's rule on an even grid *)

Section EvenGrid.
Local Open Scope R_scope.



End EvenGrid.

(** * Properties *)

(** ** The model at work *)

Section Examples.
Local Existing Instance SciPyRef.SciPy_ref.
Local Open Scope float_scope.

Example sample_symmetric :
  _sample [0; 1; 2; 3; 4; 5; 6; 7; 8; 9] 3 (1, 1) = Ok (2, 3, 4)%nat.
Proof. vm_compute. reflexivity. Qed.

Example sample_asymmetric :
  _sample [0; 1; 2; 3; 4; 5; 6; 7; 8; 9] 3 (1, 3) = Ok (2, 3, 6)%nat.
Proof. vm_compute. reflexivity. Qed.

Example sample_clamped :
  _sample [0; 1; 2; 3; 4; 5; 6; 7; 8; 9] 8 (2, 5) = Ok (6, 8, 9)%nat.
Proof. vm_compute. reflexivity. Qed.

Example sample_tie : _sample [0; 1] 0.5 (0, 0) = Ok (0, 0, 1)%nat.
Proof. vm_compute. reflexivity. Qed.

Example sample_empty : _sample (@nil float) 3 (1, 1) = Raise ValueError.
Proof. reflexivity. Qed.

Example init_demo :
  RatSession_init
    {| load_behavior := fun _ => Raise ValueError;
       load_fiber := fun _ _ => Raise ValueError |}
    (Object demo_behavior) (Object demo_fiber) (Some "rat1"%string) (1, 1) "F"
  = Ok demo_session.
Proof. vm_compute. reflexivity. Qed.

Example symmetric_window_segments :
  exists res w',
    analyze_perievent 3 None "F" demo_world = (Ok (Some res), w') /\
    time res = [2; 3; 4] /\
    pre_time res = [2] /\
    post_time res = [3; 4] /\
    sampling_rate res = 1 /\
    map fst (analyses (self w')) = [(1%nat, 3, (1, 1))].
Proof.
  eexists. eexists. split; [reflexivity|].
  repeat split; vm_compute; reflexivity.
Qed.

Example window_in_milliseconds :
  exists res w',
    analyze_perievent 3 None "F" demo_world = (Ok (Some res), w') /\
    resolve_window res (WindowStr "2500ms") = Ok (WindowInt 3) /\
    resolve_window res (WindowStr "default") = Ok (WindowInt 1) /\
    resolve_window res (WindowStr "wide") = Ok (WindowStr "wide") /\
    resolve_window res (WindowStr "xms") = Raise ValueError.
Proof.
  eexists. eexists. split; [reflexivity|].
  repeat split; vm_compute; reflexivity.
Qed.

Example simpson_of_a_parabola :
  simpson [0; 3; 12] [0; 1; 2] = Ok 8 /\
  simpson [0; 1] [0; 1] = Ok 0.5 /\
  simpson [5] [0] = Ok 0 /\
  simpson (@nil float) [] = Raise IndexError.
Proof. repeat split; vm_compute; reflexivity. Qed.

Example savgol_keeps_a_parabola :
  savgol_filter [0; 1; 4; 9; 16; 25; 36] 5 2 = Ok [0; 1; 4; 9; 16; 25; 36] /\
  savgol_filter [0; 1; 4] 5 2 = Raise ValueError /\
  savgol_filter [0; 1; 4; 9; 16] 3 3 = Raise ValueError.
Proof. repeat split; vm_compute; reflexivity. Qed.

End Examples.

(** ** Comparisons over the reals *)

Section RealComparisons.
Local Open Scope R_scope.

Lemma Rltb_lt (x y : R) : Rltb x y = true <-> x < y.
Proof.
  unfold Rltb. destruct (Rlt_dec x y); split; intros; auto; try discriminate; contradiction.
Qed.

Lemma Reqb_eq (x y : R) : Reqb x y = true <-> x = y.
Proof.
  unfold Reqb. destruct (Req_dec_T x y); split; intros; auto; try discriminate; contradiction.
Qed.

Lemma Rltb_nlt (x y : R) : ~ x < y -> Rltb x y = false.
Proof. unfold Rltb. destruct (Rlt_dec x y); tauto. Qed.

Lemma Reqb_neq (x y : R) : x <> y -> Reqb x y = false.
Proof. unfold Reqb. destruct (Req_dec_T x y); tauto. Qed.

End RealComparisons.

(** ** Tactics *)

(** Case analysis on the sign under every absolute value. *)
Ltac split_abs :=
  unfold Rabs in *;
  repeat match goal with
         | H : context [Rcase_abs ?x] |- _ => destruct (Rcase_abs x)
         | |- context [Rcase_abs ?x] => destruct (Rcase_abs x)
         end.

(** Inversion of a successful run of [perievent]: one equation for
    every call it makes. *)
Ltac perievent_inv H :=
  unfold perievent in H; cbv zeta in H;
  repeat match type of H with
         | Py.bind ?r _ = Ok _ =>
             let E := fresh "E" in
             destruct r eqn:E; cbn [Py.bind] in H; [|discriminate H]
         | context [match ?p with pair _ _ => _ end] => destruct p
         end;
  inversion H; subst; clear H.

(** Evaluation of the model over the reals: the structure is computed,
    the arithmetic is left as it stands, and each comparison is settled
    by linear arithmetic. *)
Ltac eval_model :=
  cbv -[Rplus Rminus Rmult Rdiv Rinv Ropp Rabs sqrt IZR Rltb Reqb Zceil
        Np.median Np.mean Np.std Np.sum SciPyRef.basic_simpson SciPyRef.trapezoid].

Ltac decide_real :=
  match goal with
  | |- context [Rltb ?a ?b] =>
      first [ rewrite (proj2 (Rltb_lt a b)) by (split_abs; lra)
            | rewrite (@Rltb_nlt a b) by (split_abs; lra) ]
  | |- context [Reqb ?a ?b] =>
      first [ rewrite (proj2 (Reqb_eq a b)) by (split_abs; lra)
            | rewrite (@Reqb_neq a b) by (split_abs; lra) ]
  end.


(** ** Slices and index lists *)

Section SliceFacts.
Context {A B : Type}.

Lemma slice_map (f : A -> B) (lo hi : option Z) (l : list A) :
  Py.slice lo hi (map f l) = map f (Py.slice lo hi l).
Proof.
  unfold Py.slice. rewrite length_map.
  now rewrite skipn_map, firstn_map.
Qed.

Lemma upto_map (f : A -> B) (k : Z) (l : list A) :
  Py.upto k (map f l) = map f (Py.upto k l).
Proof. apply slice_map. Qed.

Lemma from_map (f : A -> B) (k : Z) (l : list A) :
  Py.from k (map f l) = map f (Py.from k l).
Proof. apply slice_map. Qed.

(** Within the bounds of the list, [l[:k]] and [l[k:]] are [firstn] and
    [skipn]. *)
Lemma upto_firstn (k : nat) (l : list A) :
  Py.upto (Z.of_nat k) l = firstn k l.
Proof.
  unfold Py.upto, Py.slice, Py.clamp. simpl.
  destruct (Z.ltb_spec (Z.of_nat k) 0); [lia|].
  rewrite Z.sub_0_r.
  destruct (Nat.le_gt_cases k (length l)) as [Hk | Hk].
  - rewrite Z.min_l by lia. now rewrite Nat2Z.id.
  - rewrite Z.min_r by lia. rewrite Nat2Z.id.
    now rewrite !firstn_all2 by lia.
Qed.

Lemma from_skipn (k : nat) (l : list A) :
  Py.from (Z.of_nat k) l = skipn k l.
Proof.
  unfold Py.from, Py.slice, Py.clamp.
  destruct (Z.ltb_spec (Z.of_nat k) 0); [lia|].
  destruct (Nat.le_gt_cases k (length l)) as [Hk | Hk].
  - rewrite Z.min_l by lia. rewrite Nat2Z.id.
    apply firstn_all2. rewrite length_skipn. lia.
  - rewrite Z.min_r by lia. rewrite Z.sub_diag, Nat2Z.id. simpl.
    now rewrite !skipn_all2 by lia.
Qed.

Lemma upto_from_app (k : Z) (l : list A) :
  Py.upto k l ++ Py.from k l = l.
Proof.
  unfold Py.upto, Py.from, Py.slice.
  set (n := Z.of_nat (length l)).
  assert (Hc : (0 <= Py.clamp n k <= n)%Z) by (unfold Py.clamp; destruct (Z.ltb_spec k 0); lia).
  rewrite Z.sub_0_r. simpl.
  rewrite (firstn_all2 (n := Z.to_nat (n - Py.clamp n k))).
  - apply firstn_skipn.
  - rewrite length_skipn. lia.
Qed.

End SliceFacts.

Section IndexFacts.

Lemma nonzero_from_In (c : list bool) (s i : nat) :
  In i (Np.nonzero_from s c) <-> s <= i /\ nth (i - s) c false = true.
Proof.
  revert s. induction c as [|b c IH]; intros s; simpl.
  - split; [tauto | intros [_ E]; destruct (i - s); discriminate].
  - assert (Hc : In i (Np.nonzero_from (S s) c) <->
                 s <= i /\ i <> s /\ nth (i - S s) c false = true).
    { rewrite IH. split; [intros [? ?] | intros (? & ? & ?)]; repeat split; auto; lia. }
    destruct b; simpl; rewrite ?Hc.
    + split.
      * intros [<- | (Hs & Hne & E)].
        -- now rewrite Nat.sub_diag.
        -- split; [exact Hs|]. replace (i - s) with (S (i - S s)) by lia. exact E.
      * intros [Hs E]. destruct (Nat.eq_dec s i) as [-> | Hne]; [now left | right].
        repeat split; auto. replace (i - s) with (S (i - S s)) in E by lia. exact E.
    + split.
      * intros (Hs & Hne & E). split; [exact Hs|].
        replace (i - s) with (S (i - S s)) by lia. exact E.
      * intros [Hs E]. destruct (Nat.eq_dec s i) as [-> | Hne].
        -- rewrite Nat.sub_diag in E. discriminate.
        -- repeat split; auto. replace (i - s) with (S (i - S s)) in E by lia. exact E.
Qed.

Lemma nonzero_In (c : list bool) (i : nat) :
  In i (Np.nonzero c) <-> nth i c false = true.
Proof.
  unfold Np.nonzero. rewrite nonzero_from_In, Nat.sub_0_r.
  split; [tauto | split; [lia | assumption]].
Qed.

Lemma nonzero_from_sorted (c : list bool) (s : nat) :
  StronglySorted lt (Np.nonzero_from s c).
Proof.
  revert s. induction c as [|b c IH]; intros s; simpl; [constructor|].
  destruct b; [|apply IH].
  constructor; [apply IH|].
  apply Forall_forall. intros i Hi. apply nonzero_from_In in Hi. lia.
Qed.

Lemma first_least (l : list nat) :
  StronglySorted lt l -> l <> [] ->
  exists x, Py.first l = Ok x /\ In x l /\ forall y, In y l -> x <= y.
Proof.
  intros Hs Hne. destruct l as [|x l]; [congruence|].
  exists x. simpl. repeat split; auto.
  intros y [<- | Hy]; [lia|].
  inversion Hs as [|? ? _ Hall]; subst.
  rewrite Forall_forall in Hall. specialize (Hall _ Hy). lia.
Qed.

Lemma last_greatest (l : list nat) :
  StronglySorted lt l -> l <> [] ->
  exists x, Py.last l = Ok x /\ In x l /\ forall y, In y l -> y <= x.
Proof.
  induction l as [|a l IH]; intros Hs Hne; [congruence|].
  inversion Hs as [|? ? Hs' Hall]; subst.
  destruct l as [|b l].
  - exists a. simpl. repeat split; auto. intros y [<- | []]. lia.
  - destruct (IH Hs') as (x & E & Hin & Hmax); [discriminate|].
    exists x. split; [exact E|]. split; [now right|].
    intros y [<- | Hy]; [|now apply Hmax].
    rewrite Forall_forall in Hall. specialize (Hall _ Hin). lia.
Qed.

End IndexFacts.

(** ** The sampler *)

Section SamplerFacts.
Context {F : Type} {num : Scalar F}.

Lemma distances_length (times : list F) (x : F) :
  length (distances times x) = length times.
Proof. unfold distances, Np.absolute, Np.sub_scalar. now rewrite !length_map. Qed.

Lemma lt_irrefl (l : list F) (x : F) : comparable l -> In x l -> fltb x x = false.
Proof.
  intros Hc Hx. destruct (fltb x x) eqn:E; [|reflexivity].
  pose proof (lt_asym Hc x x Hx Hx E). congruence.
Qed.

(** The running least value of the built-in [min]. *)
Lemma running_min (l a : list F) (x : F) :
  comparable l -> In x l -> incl a l ->
  let m := fold_left (fun m y => if fltb y m then y else m) a x in
  (m = x \/ In m a) /\ fltb x m = false /\ (forall y, In y a -> fltb y m = false).
Proof.
  intros Hc. cbv zeta. revert x.
  induction a as [|y a IH]; intros x Hx Ha; cbn [fold_left].
  - split; [now left|]. split; [now apply (lt_irrefl x Hc) | intros ? []].
  - assert (Hy : In y l) by (apply Ha; now left).
    assert (Ha' : incl a l) by (intros z Hz; apply Ha; now right).
    destruct (fltb y x) eqn:Eyx.
    + destruct (IH y Hy Ha') as (Hin & Hle & Hall).
      set (m := fold_left (fun m y => if fltb y m then y else m) a y) in *.
      assert (Hm : In m l) by (destruct Hin as [-> | Hin]; auto).
      split; [destruct Hin as [-> | Hin]; [right; now left | right; now right]|].
      split.
      * apply (lt_negtrans Hc x y m); auto. now apply (lt_asym Hc y x).
      * intros z [<- | Hz]; auto.
    + destruct (IH x Hx Ha') as (Hin & Hle & Hall).
      set (m := fold_left (fun m y => if fltb y m then y else m) a x) in *.
      assert (Hm : In m l) by (destruct Hin as [-> | Hin]; auto).
      split; [destruct Hin as [-> | Hin]; [now left | right; now right]|].
      split; [exact Hle|].
      intros z [<- | Hz]; [|now apply Hall].
      now apply (lt_negtrans Hc y x m).
Qed.

Lemma min_least (a : list F) :
  comparable a -> a <> [] ->
  exists m, Np.min a = Ok m /\ In m a /\ (forall y, In y a -> fltb y m = false).
Proof.
  intros Hc Hne. destruct a as [|x a]; [congruence|].
  assert (Hx : In x (x :: a)) by now left.
  assert (Ha : incl a (x :: a)) by (intros z Hz; now right).
  pose proof (running_min (a := a) x Hc Hx Ha) as Hm. cbv zeta in Hm.
  destruct Hm as (Hin & Hle & Hall).
  exists (fold_left (fun m y => if fltb y m then y else m) a x).
  split; [reflexivity|]. split.
  - destruct Hin as [-> | Hin]; [now left | now right].
  - intros y [<- | Hy]; auto.
Qed.

Lemma eq_scalar_nth (a : list F) (m : F) (i : nat) :
  nth i (Np.eq_scalar a m) false = true <->
  i < length a /\ feqb (nth i a fzero) m = true.
Proof.
  unfold Np.eq_scalar. split.
  - intros E.
    assert (Hi : i < length a).
    { destruct (Nat.lt_ge_cases i (length a)) as [|Hge]; [assumption|].
      rewrite nth_overflow in E by (rewrite length_map; lia). discriminate. }
    split; [exact Hi|].
    rewrite (nth_indep _ false (feqb fzero m)) in E by (rewrite length_map; lia).
    now rewrite (map_nth (fun t => feqb t m) a fzero i) in E.
  - intros [Hi E].
    rewrite (nth_indep _ false (feqb fzero m)) by (rewrite length_map; lia).
    now rewrite (map_nth (fun t => feqb t m) a fzero i).
Qed.

(** An index whose value is not greater than a least value is an index
    of a least value. *)
Lemma least_at_tie (dist : list F) (i j : nat) :
  comparable dist -> least_at dist i -> j < length dist ->
  fltb (nth i dist fzero) (nth j dist fzero) = false ->
  least_at dist j.
Proof.
  intros Hc [Hi Li] Hj Hle. split; [exact Hj|].
  intros k Hk.
  apply (lt_negtrans Hc _ (nth i dist fzero)); auto using nth_In.
Qed.

(** The positions where the distance equals its least value are the
    indices of a least distance, and there is one. *)
Lemma least_positions (dist : list F) :
  comparable dist -> dist <> [] ->
  exists m,
    Np.min dist = Ok m /\
    Np.nonzero (Np.eq_scalar dist m) <> [] /\
    forall i, In i (Np.nonzero (Np.eq_scalar dist m)) <-> least_at dist i.
Proof.
  intros Hc Hne.
  destruct (min_least Hc Hne) as (m & Em & Hin & Hleast).
  assert (Hpos : forall i,
             In i (Np.nonzero (Np.eq_scalar dist m)) <-> least_at dist i).
  { intros i. rewrite nonzero_In, eq_scalar_nth. unfold least_at. split.
    - intros [Hi E]. split; [exact Hi|]. intros j Hj.
      apply (eq_incomparable Hc) in E; auto using nth_In. destruct E as [_ E].
      apply (lt_negtrans Hc _ m); auto using nth_In.
    - intros [Hi Hall]. split; [exact Hi|].
      apply (eq_incomparable Hc); auto using nth_In. split.
      + apply Hleast. now apply nth_In.
      + destruct (In_nth dist m fzero Hin) as (k & Hk & <-). now apply Hall. }
  exists m. split; [exact Em|]. split; [|exact Hpos].
  destruct (In_nth dist m fzero Hin) as (k & Hk & Ek).
  assert (Hin0 : In k (Np.nonzero (Np.eq_scalar dist m))).
  { apply Hpos. split; [exact Hk|]. intros j Hj. rewrite Ek.
    apply Hleast. now apply nth_In. }
  intros E. rewrite E in Hin0. destruct Hin0.
Qed.

(** The sampler on comparable distances: it returns, and its indices are
    the first index of a least distance to the start of the window, the
    first to the event and the last to the end of the window. *)
Lemma sample_returns_least (times : list F) (ev pre post : F) :
  times <> [] ->
  comparable (distances times (fsub ev pre)) ->
  comparable (distances times ev) ->
  comparable (distances times (fadd ev post)) ->
  exists s e d,
    _sample times ev (pre, post) = Ok (s, e, d) /\
    first_least_at (distances times (fsub ev pre)) s /\
    first_least_at (distances times ev) e /\
    last_least_at (distances times (fadd ev post)) d.
Proof.
  intros Hne C1 C2 C3.
  assert (Hd : forall x, distances times x <> []).
  { intros x E. apply (f_equal (@length F)) in E. rewrite distances_length in E.
    destruct times; [congruence | discriminate]. }
  unfold _sample. cbn [fst snd].
  fold (distances times (fsub ev pre)) (distances times ev)
       (distances times (fadd ev post)).
  destruct (least_positions C1 (Hd _)) as (m1 & E1 & N1 & P1).
  destruct (least_positions C2 (Hd _)) as (m2 & E2 & N2 & P2).
  destruct (least_positions C3 (Hd _)) as (m3 & E3 & N3 & P3).
  destruct (first_least (nonzero_from_sorted _ 0) N1) as (s & Fs & Hs & Ls).
  destruct (first_least (nonzero_from_sorted _ 0) N2) as (e & Fe & He & Le).
  destruct (last_greatest (nonzero_from_sorted _ 0) N3) as (d & Fd & Hd' & Ld).
  exists s, e, d.
  rewrite E1. cbn [Py.bind]. unfold Np.nonzero in *. rewrite Fs. cbn [Py.bind].
  rewrite E2. cbn [Py.bind]. rewrite Fe. cbn [Py.bind].
  rewrite E3. cbn [Py.bind]. rewrite Fd. cbn [Py.bind].
  split; [reflexivity|].
  split; [|split]; split.
  - now apply P1.
  - intros j Hj. apply Ls. now apply P1.
  - now apply P2.
  - intros j Hj. apply Le. now apply P2.
  - now apply P3.
  - intros j Hj. apply Ld. now apply P3.
Qed.

(** Whatever the scalars, the indices of a returned triple are indices
    of the time array. *)
Lemma sample_indices_valid (times : list F) (ev : F) (win : F * F) (s e d : nat) :
  _sample times ev win = Ok (s, e, d) ->
  s < length times /\ e < length times /\ d < length times.
Proof.
  unfold _sample. cbv zeta.
  fold (distances times (fsub ev (fst win))) (distances times ev)
       (distances times (fadd ev (snd win))).
  intros E.
  repeat match type of E with
         | Py.bind ?r _ = Ok _ =>
             let H := fresh "H" in
             destruct r eqn:H; cbn [Py.bind] in E; [|discriminate E]
         end.
  inversion E; subst; clear E.
  assert (Hfirst : forall (l : list nat) x, Py.first l = Ok x -> In x l).
  { intros [|y l] x Hx; [discriminate|]. inversion Hx. now left. }
  assert (Hlast : forall (l : list nat) x, Py.last l = Ok x -> In x l).
  { induction l as [|y [|z l] IH]; intros x Hx; [discriminate | |].
    - inversion Hx. now left.
    - right. now apply IH. }
  assert (Hin : forall dist m i,
             In i (Np.nonzero (Np.eq_scalar dist m)) -> i < length dist).
  { intros dist m i Hi. apply nonzero_In, eq_scalar_nth in Hi. tauto. }
  repeat split.
  - rewrite <- (distances_length times (fsub ev (fst win))).
    eapply Hin, Hfirst. eassumption.
  - rewrite <- (distances_length times ev). eapply Hin, Hfirst. eassumption.
  - rewrite <- (distances_length times (fadd ev (snd win))).
    eapply Hin, Hlast. eassumption.
Qed.

Lemma coherentb_coherent (times : list F) (x y : F) :
  coherentb times x y = true -> coherent times x y.
Proof.
  unfold coherentb, coherent. cbv zeta. intros H i j [Hij Hj].
  rewrite forallb_forall in H.
  assert (Hjn : In j (seq 0 (length times))) by (apply in_seq; lia).
  specialize (H j Hjn). rewrite forallb_forall in H.
  assert (Hin : In i (seq 0 j)) by (apply in_seq; lia).
  specialize (H i Hin). apply andb_true_iff in H as [H1 H2].
  split; intros E; rewrite E in *; assumption.
Qed.

End SamplerFacts.

(** ** The order of binary64 *)

Section FloatOrder.

Lemma lex_compare_lt (p q : Z * Z * Z) : lex_compare p q = Lt <-> lex_lt p q.
Proof.
  destruct p as [[a b] c], q as [[a' b'] c']. unfold lex_compare, lex_lt.
  destruct (Z.compare_spec a a'), (Z.compare_spec b b'), (Z.compare_spec c c');
    split; intros Hlt; try discriminate; try reflexivity; lia.
Qed.

Lemma lex_compare_eq (p q : Z * Z * Z) : lex_compare p q = Eq <-> p = q.
Proof.
  destruct p as [[a b] c], q as [[a' b'] c']. unfold lex_compare.
  destruct (Z.compare_spec a a'), (Z.compare_spec b b'), (Z.compare_spec c c');
    split; intros Heq; try discriminate; try reflexivity;
    try (inversion Heq; lia); subst; reflexivity.
Qed.

Lemma SFcompare_rank (f g : SpecFloat.spec_float) :
  f <> SpecFloat.S754_nan -> g <> SpecFloat.S754_nan ->
  SpecFloat.SFcompare f g = Some (lex_compare (rank f) (rank g)).
Proof.
  intros Hf Hg.
  destruct f as [s|s| |s m e], g as [s'|s'| |s' m' e']; try congruence;
    try (destruct s; reflexivity); try (destruct s'; reflexivity);
    try (destruct s, s'; reflexivity).
  destruct s, s'; try reflexivity; cbn [SpecFloat.SFcompare rank lex_compare].
  change (-1 ?= -1)%Z with Eq. cbv iota.
  rewrite Z.compare_opp, (Z.compare_antisym e e').
  destruct (e ?= e')%Z; reflexivity.
Qed.

Lemma not_nan (x : PrimFloat.float) :
  PrimFloat.eqb x x = true -> FloatOps.Prim2SF x <> SpecFloat.S754_nan.
Proof.
  rewrite FloatAxioms.eqb_spec. intros E N. rewrite N in E. discriminate.
Qed.

Lemma float_ltb_rank (x y : PrimFloat.float) :
  PrimFloat.eqb x x = true -> PrimFloat.eqb y y = true ->
  (PrimFloat.ltb x y = true <->
   lex_lt (rank (FloatOps.Prim2SF x)) (rank (FloatOps.Prim2SF y))).
Proof.
  intros Hx Hy. rewrite FloatAxioms.ltb_spec. unfold SpecFloat.SFltb.
  rewrite (SFcompare_rank (not_nan Hx) (not_nan Hy)), <- lex_compare_lt.
  destruct (lex_compare _ _); split; congruence.
Qed.

Lemma float_eqb_rank (x y : PrimFloat.float) :
  PrimFloat.eqb x x = true -> PrimFloat.eqb y y = true ->
  (PrimFloat.eqb x y = true <->
   rank (FloatOps.Prim2SF x) = rank (FloatOps.Prim2SF y)).
Proof.
  intros Hx Hy. rewrite FloatAxioms.eqb_spec. unfold SpecFloat.SFeqb.
  rewrite (SFcompare_rank (not_nan Hx) (not_nan Hy)), <- lex_compare_eq.
  destruct (lex_compare _ _); split; congruence.
Qed.

Lemma float_ltb_false (x y : PrimFloat.float) :
  PrimFloat.eqb x x = true -> PrimFloat.eqb y y = true ->
  (PrimFloat.ltb x y = false <->
   ~ lex_lt (rank (FloatOps.Prim2SF x)) (rank (FloatOps.Prim2SF y))).
Proof.
  intros Hx Hy. rewrite <- (float_ltb_rank Hx Hy).
  destruct (PrimFloat.ltb x y); split; congruence.
Qed.

(** Binary64 values none of which is a NaN are comparable. *)
Lemma float_comparable (l : list PrimFloat.float) :
  (forall x, In x l -> PrimFloat.eqb x x = true) -> comparable l.
Proof.
  intros Hl. constructor; cbn [fltb feqb Scalar_float].
  - intros x y Hx Hy. rewrite float_ltb_rank, float_ltb_false by auto.
    destruct (rank (FloatOps.Prim2SF x)) as [[a b] c],
             (rank (FloatOps.Prim2SF y)) as [[a' b'] c'].
    unfold lex_lt. lia.
  - intros x y z Hx Hy Hz. rewrite !float_ltb_false by auto.
    destruct (rank (FloatOps.Prim2SF x)) as [[a b] c],
             (rank (FloatOps.Prim2SF y)) as [[a' b'] c'],
             (rank (FloatOps.Prim2SF z)) as [[a'' b''] c''].
    unfold lex_lt. lia.
  - intros x y Hx Hy. rewrite float_eqb_rank, !float_ltb_false by auto.
    destruct (rank (FloatOps.Prim2SF x)) as [[a b] c],
             (rank (FloatOps.Prim2SF y)) as [[a' b'] c'].
    unfold lex_lt. split; [intros E; inversion E; lia|].
    intros [H1 H2]. f_equal; [f_equal|]; lia.
Qed.

End FloatOrder.

(** ** The order of the reals *)

Section RealOrder.
Local Open Scope R_scope.

(** Every list of reals is comparable. *)
Lemma real_comparable (l : list R) : comparable l.
Proof.
  constructor; cbn [fltb feqb Scalar_R]; unfold Rltb, Reqb.
  - intros x y _ _. destruct (Rlt_dec x y), (Rlt_dec y x); try reflexivity; try discriminate.
    lra.
  - intros x y z _ _ _.
    destruct (Rlt_dec x y), (Rlt_dec y z), (Rlt_dec x z);
      try reflexivity; try discriminate; lra.
  - intros x y _ _.
    destruct (Req_dec_T x y), (Rlt_dec x y), (Rlt_dec y x);
      split; try tauto; try discriminate; try lra;
      intros [? ?]; try discriminate; lra.
Qed.

Lemma distance_nth (times : list R) (x : R) (i : nat) :
  (i < length times)%nat ->
  nth i (distances times x) 0 = Rabs (nth i times 0 - x).
Proof.
  intros Hi. unfold distances, Np.absolute, Np.sub_scalar. rewrite map_map.
  rewrite (nth_indep _ 0 (Rabs (0 - x))) by (now rewrite length_map).
  exact (map_nth (fun t => Rabs (t - x)) times 0 i).
Qed.

(** In exact arithmetic the distances of an increasing time array to an
    earlier and to a later target are coherent. *)
Lemma real_coherent (times : list R) (x y : R) :
  strictly_increasing times -> x <= y -> coherent times x y.
Proof.
  intros Hinc Hxy i j [Hij Hj].
  assert (Ht : nth i times 0 < nth j times 0) by (apply Hinc; lia).
  change (@fzero R Scalar_R) with 0. cbn [fltb Scalar_R].
  rewrite !distance_nth by lia.
  rewrite !Rltb_lt. revert Ht. generalize (nth i times 0) (nth j times 0).
  intros a b Hab. split; intros H; revert H; split_abs; lra.
Qed.

(** In exact arithmetic an index of a least distance is an index of a
    nearest sample. *)
Lemma real_least_is_nearest (times : list R) (x : R) (i : nat) :
  least_at (distances times x) i <-> nearest times x i.
Proof.
  unfold least_at, nearest. rewrite distances_length.
  change (@fzero R Scalar_R) with 0. cbn [fltb Scalar_R].
  split; intros [Hi H]; (split; [exact Hi|]); intros j Hj; specialize (H j Hj).
  - rewrite !distance_nth in H by assumption.
    destruct (Rle_or_lt (Rabs (nth i times 0 - x)) (Rabs (nth j times 0 - x)))
      as [|Hlt]; [assumption|].
    apply Rltb_lt in Hlt. congruence.
  - rewrite !distance_nth by assumption. apply Rltb_nlt. lra.
Qed.

End RealOrder.

Section SamplerTheorems.
Context {F : Type} {num : Scalar F}.

(** C2 (as amended).  For every time array with at least one sample
    and every event time and window, when the distances the sampler
    computes to each of its three targets are comparable - for binary64,
    when none of them is a NaN - the sampler returns a triple.  Its start
    index is an index at which the computed distance to [event - pre] is
    least, and the first one: at every earlier index the computed
    distance is greater.  Its event index is the first index at which the
    computed distance to the event is least, in the same sense.  Its end
    index is an index at which the computed distance to [event + post] is
    least, and the last one: at every later index the computed distance
    is greater. *)
Theorem sample_nearest_tie_break (times : list F) (ev pre post : F) :
  times <> [] ->
  comparable (distances times (fsub ev pre)) ->
  comparable (distances times ev) ->
  comparable (distances times (fadd ev post)) ->
  exists s e d,
    _sample times ev (pre, post) = Ok (s, e, d) /\
    least_at (distances times (fsub ev pre)) s /\
    (forall j, j < s ->
       fltb (nth s (distances times (fsub ev pre)) fzero)
            (nth j (distances times (fsub ev pre)) fzero) = true) /\
    least_at (distances times ev) e /\
    (forall j, j < e ->
       fltb (nth e (distances times ev) fzero)
            (nth j (distances times ev) fzero) = true) /\
    least_at (distances times (fadd ev post)) d /\
    (forall j, d < j < length times ->
       fltb (nth d (distances times (fadd ev post)) fzero)
            (nth j (distances times (fadd ev post)) fzero) = true).
Proof.
  intros Hne C1 C2 C3.
  destruct (sample_returns_least ev pre post Hne C1 C2 C3)
    as (s & e & d & E & [Ls Fs] & [Le Fe] & [Ld Ll]).
  exists s, e, d. split; [exact E|].
  assert (Hstrict : forall dist i j,
             comparable dist -> least_at dist i -> j < length dist ->
             ~ least_at dist j ->
             fltb (nth i dist fzero) (nth j dist fzero) = true).
  { intros dist i j Hc Li Hj Hn.
    destruct (fltb (nth i dist fzero) (nth j dist fzero)) eqn:Hcmp; [reflexivity|].
    destruct Hn. exact (least_at_tie Hc Li Hj Hcmp). }
  pose proof Ls as [Hs _]. pose proof Le as [He _].
  split; [exact Ls|]. split.
  { intros j Hj. apply Hstrict; [exact C1 | exact Ls | lia |].
    intros Hn. apply Fs in Hn. lia. }
  split; [exact Le|]. split.
  { intros j Hj. apply Hstrict; [exact C2 | exact Le | lia |].
    intros Hn. apply Fe in Hn. lia. }
  split; [exact Ld|].
  intros j [Hdj Hj]. apply Hstrict; [exact C3 | exact Ld | |].
  - now rewrite distances_length.
  - intros Hn. apply Ll in Hn. lia.
Qed.

(** C3 (as amended).  For every time array with at least one sample,
    every event time and every window, when the computed distances to
    each of the three targets are comparable and the distances to the
    start of the window and to the event, and those to the event and to
    the end of the window, are coherent - as they are in exact arithmetic
    on a strictly increasing array with durations that are not negative -
    the sampler returns a triple with [start_idx <= event_idx <= end_idx],
    all three of them indices of the time array. *)
Theorem sample_indices_ordered (times : list F) (ev pre post : F) :
  times <> [] ->
  comparable (distances times (fsub ev pre)) ->
  comparable (distances times ev) ->
  comparable (distances times (fadd ev post)) ->
  coherent times (fsub ev pre) ev ->
  coherent times ev (fadd ev post) ->
  exists s e d,
    _sample times ev (pre, post) = Ok (s, e, d) /\
    s <= e /\ e <= d /\
    s < length times /\ e < length times /\ d < length times.
Proof.
  intros Hne C1 C2 C3 H12 H23.
  destruct (sample_returns_least ev pre post Hne C1 C2 C3)
    as (s & e & d & E & [Ls Fs] & [Le Fe] & [Ld Ll]).
  exists s, e, d. split; [exact E|].
  pose proof Ls as [Hs _]. pose proof Le as [He Me]. pose proof Ld as [Hd _].
  rewrite distances_length in Hs, He, Hd.
  assert (Hse : s <= e).
  { destruct (Nat.le_gt_cases s e) as [|Hlt]; [assumption | exfalso].
    destruct (fltb (nth s (distances times (fsub ev pre)) fzero)
                   (nth e (distances times (fsub ev pre)) fzero)) eqn:Hcmp.
    - destruct (H12 e s) as [Hr _]; [lia|].
      specialize (Hr Hcmp). rewrite Me in Hr; [discriminate|].
      now rewrite distances_length.
    - assert (Hn : least_at (distances times (fsub ev pre)) e).
      { apply (least_at_tie C1 Ls); [now rewrite distances_length | exact Hcmp]. }
      apply Fs in Hn. lia. }
  assert (Hed : e <= d).
  { destruct (Nat.le_gt_cases e d) as [|Hlt]; [assumption | exfalso].
    destruct (fltb (nth d (distances times (fadd ev post)) fzero)
                   (nth e (distances times (fadd ev post)) fzero)) eqn:Hcmp.
    - destruct (H23 d e) as [_ Hl]; [lia|].
      specialize (Hl Hcmp). rewrite Me in Hl; [discriminate|].
      now rewrite distances_length.
    - assert (Hn : least_at (distances times (fadd ev post)) e).
      { apply (least_at_tie C3 Ld); [now rewrite distances_length | exact Hcmp]. }
      apply Ll in Hn. lia. }
  auto.
Qed.

End SamplerTheorems.

Section SamplerOnBinary64.
Local Open Scope float_scope.

(** A recording sampled at 0 and 1 with the event half-way: both samples
    are equally near, the start takes the first and the end the last. *)
Lemma sample_nearest_tie_break_witness :
  exists s e d,
    _sample [0; 1] 0.5 (0, 0) = Ok (s, e, d) /\
    least_at (distances [0; 1] (fsub 0.5 0)) s /\
    (forall j, (j < s)%nat ->
       fltb (nth s (distances [0; 1] (fsub 0.5 0)) fzero)
            (nth j (distances [0; 1] (fsub 0.5 0)) fzero) = true) /\
    least_at (distances [0; 1] 0.5) e /\
    (forall j, (j < e)%nat ->
       fltb (nth e (distances [0; 1] 0.5) fzero)
            (nth j (distances [0; 1] 0.5) fzero) = true) /\
    least_at (distances [0; 1] (fadd 0.5 0)) d /\
    (forall j, (d < j < length [0; 1])%nat ->
       fltb (nth d (distances [0; 1] (fadd 0.5 0)) fzero)
            (nth j (distances [0; 1] (fadd 0.5 0)) fzero) = true).
Proof.
  apply (@sample_nearest_tie_break float _ [0; 1] 0.5 0 0);
    [discriminate | apply float_comparable ..];
    intros x [<- | [<- | []]]; reflexivity.
Defined.

(** C2, on the code: the samples are at 0, 2^-60 and 3 s and the target
    is 1 s.  The sample at 2^-60 s is nearer to the target than the
    sample at 0 s, but both differences round to 1, and the start index
    and the event index are 0.  With a NaN as first sample the sampler
    raises [IndexError], although the second sample is on the target. *)
Lemma sample_nearest_not_exact :
  _sample [0; 0x1p-60; 3] 1 (0, 0) = Ok (0, 0, 1)%nat /\
  exactly_nearer 0x1p-60 0 1 /\
  distances [0; 0x1p-60; 3] 1 = [1; 1; 2] /\
  _sample [nan; 0] 0 (0, 0) = Raise IndexError.
Proof.
  split; [vm_compute; reflexivity|].
  split; [vm_compute; reflexivity|].
  split; vm_compute; reflexivity.
Qed.

(** Four samples at 1 Hz, the event on the third, one second each way. *)
Lemma sample_indices_ordered_witness :
  exists s e d,
    _sample [0; 1; 2; 3] 2 (1, 1) = Ok (s, e, d) /\
    (s <= e)%nat /\ (e <= d)%nat /\
    (s < length [0; 1; 2; 3])%nat /\ (e < length [0; 1; 2; 3])%nat /\
    (d < length [0; 1; 2; 3])%nat.
Proof.
  apply (@sample_indices_ordered float _ [0; 1; 2; 3] 2 1 1);
    [ discriminate
    | apply float_comparable; intros x [<- | [<- | [<- | [<- | []]]]]; reflexivity ..
    | apply coherentb_coherent; vm_compute; reflexivity
    | apply coherentb_coherent; vm_compute; reflexivity ].
Defined.

(** C3, on the code: the samples are at 0, 2^-60 and 3 s, the event is
    at 1 s and the window starts 1 - 2^-20 s before it.  The array is
    strictly increasing and the durations are not negative; the start
    index is 1, since the start of the window, 2^-20 s, is nearer to
    2^-60 s than to 0 s, and the event index is 0, since the differences
    of both samples to the event round to 1. *)
Lemma sample_indices_out_of_order :
  (0 <? 0x1p-60) = true /\ (0x1p-60 <? 3) = true /\
  (0 <=? 0x1.ffffep-1) = true /\
  _sample [0; 0x1p-60; 3] 1 (0x1.ffffep-1, 0) = Ok (1, 0, 1)%nat.
Proof. repeat split; vm_compute; reflexivity. Qed.

End SamplerOnBinary64.

Section SamplerRaises.
Context {F : Type} {num : Scalar F}.

Lemma min_raises (a : list F) (e : exn) : Np.min a = Raise e -> e = ValueError.
Proof. destruct a; simpl; intros E; now inversion E. Qed.

Lemma first_raises {A : Type} (l : list A) (e : exn) :
  Py.first l = Raise e -> e = IndexError.
Proof. destruct l; simpl; intros E; now inversion E. Qed.

Lemma last_raises {A : Type} (l : list A) (e : exn) :
  Py.last l = Raise e -> e = IndexError.
Proof.
  induction l as [|x [|y l] IH]; simpl.
  - intros E. now inversion E.
  - discriminate.
  - exact IH.
Qed.

(** The sampler raises nothing but [ValueError] (no sample at all) and
    [IndexError] (no position equal to the least distance). *)
Lemma sample_raises (times : list F) (ev : F) (win : F * F) (e : exn) :
  _sample times ev win = Raise e -> e = ValueError \/ e = IndexError.
Proof.
  unfold _sample. cbv zeta.
  repeat match goal with
         | |- Py.bind ?r _ = Raise _ -> _ =>
             let E := fresh "E" in
             destruct r eqn:E; cbn [Py.bind]
         end;
    try discriminate;
    intros Hr; inversion Hr; subst;
    match goal with
    | E : Np.min _ = Raise _ |- _ => left; exact (min_raises _ E)
    | E : Py.first _ = Raise _ |- _ => right; exact (first_raises _ E)
    | E : Py.last _ = Raise _ |- _ => right; exact (last_raises _ E)
    end.
Qed.

End SamplerRaises.


(** ** The perievent pipeline: control flow and cache *)

Section PipelineFacts.
Context {F : Type} {num : Scalar F} {scipy : SciPy F}.

Lemma normalisation_label_unknown (s : RatSession F) (norm : string) :
  norm <> "default"%string -> norm <> "F"%string -> norm <> "Z"%string ->
  normalisation_label s norm = None.
Proof.
  intros Hd Hf Hz. unfold normalisation_label.
  apply String.eqb_neq in Hd, Hf, Hz. now rewrite Hd, Hf, Hz.
Qed.

(** The four ways a call of [analyze_perievent] ends. *)
Lemma analyze_perievent_cases (ev : F) (win : option (F * F)) (norm : string)
    (w : World F) :
  let r := analyze_perievent ev win norm w in
  (normalisation_label (self w) norm = None /\
   r = (Ok None, printed w invalid_norm_message)) \/
  (exists label,
      normalisation_label (self w) norm = Some label /\
      (FiberData._find_rec (fiber (self w)) ev = Ok [] \/
       FiberData._find_rec (fiber (self w)) ev = Raise IndexError) /\
      r = (Ok None, printed w no_recording_message)) \/
  (exists e, r = (Raise e, w)) \/
  (exists label rec rest res,
      normalisation_label (self w) norm = Some label /\
      FiberData._find_rec (fiber (self w)) ev = Ok (rec :: rest) /\
      perievent (self w) ev win norm label rec = Ok res /\
      r = (Ok (Some res), {| self := cached (self w) res; stdout := stdout w |})).
Proof.
  unfold analyze_perievent, remember, mbind, get_self, ret, lift, print, set_self, printed.
  cbn [self stdout].
  destruct (normalisation_label (self w) norm) as [label|] eqn:El; [|now left].
  right.
  destruct (FiberData._find_rec (fiber (self w)) ev) as [[|rec rest]|e] eqn:Ef.
  - left. exists label. auto.
  - right. destruct (perievent (self w) ev win norm label rec) as [res|e] eqn:Ep.
    + right. exists label, rec, rest, res. auto.
    + left. now exists e.
  - destruct e;
      try (right; left; eexists; reflexivity).
    left. exists label. auto.
Qed.

(** A call that does not return a result leaves the session as it was. *)
Lemma analyze_perievent_failure (ev : F) (win : option (F * F)) (norm : string)
    (w w' : World F) (r : result (option (Analysis F))) :
  analyze_perievent ev win norm w = (r, w') ->
  (forall res, r <> Ok (Some res)) ->
  self w' = self w.
Proof.
  intros E Hfail.
  destruct (analyze_perievent_cases ev win norm w)
    as [[_ E'] | [(label & _ & _ & E') | [(e & E') | (label & rec & rest & res & _ & _ & _ & E')]]];
    rewrite E in E'; inversion E'; subst; try reflexivity.
  now destruct (Hfail res).
Qed.

Lemma analyze_perievent_success (ev : F) (win : option (F * F)) (norm : string)
    (w w' : World F) (res : Analysis F) :
  analyze_perievent ev win norm w = (Ok (Some res), w') ->
  exists label rec,
    perievent (self w) ev win norm label rec = Ok res /\
    w' = {| self := cached (self w) res; stdout := stdout w |}.
Proof.
  intros E.
  destruct (analyze_perievent_cases ev win norm w)
    as [[_ E'] | [(label & _ & _ & E') | [(e & E') | (label & rec & rest & res' & _ & _ & Ep & E')]]];
    rewrite E in E'; inversion E'; subst.
  now exists label, rec.
Qed.

(** C4 (as amended).  For every selector other than ['default'], ['F']
    and ['Z'] - ['raw'] among them - [analyze_perievent] prints its
    message about the choice of normalisation and returns [None]; the
    session is left as it was and no exception is raised. *)
Theorem invalid_selector_prints_and_returns_none (ev : F) (win : option (F * F))
    (norm : string) (w : World F) :
  norm <> "default"%string -> norm <> "F"%string -> norm <> "Z"%string ->
  analyze_perievent ev win norm w = (Ok None, printed w invalid_norm_message).
Proof.
  intros Hd Hf Hz.
  unfold analyze_perievent, mbind, get_self.
  now rewrite (normalisation_label_unknown (self w) Hd Hf Hz).
Qed.

(** C5 (as amended).  For a recognised selector and an event timestamp
    for which the recording lookup finds no recording (it returns an
    empty sequence or raises [IndexError]), [analyze_perievent] prints
    ['No fiber recording at this timestamp'] and returns [None]; the
    session is left as it was, no exception is raised and no recording
    index is assumed. *)
Theorem no_recording_prints_and_returns_none (ev : F) (win : option (F * F))
    (norm label : string) (w : World F) :
  normalisation_label (self w) norm = Some label ->
  FiberData._find_rec (fiber (self w)) ev = Ok [] \/
  FiberData._find_rec (fiber (self w)) ev = Raise IndexError ->
  analyze_perievent ev win norm w = (Ok None, printed w no_recording_message).
Proof.
  intros El Ef.
  unfold analyze_perievent, mbind, get_self. rewrite El.
  now destruct Ef as [-> | ->].
Qed.

(** C7.  A call of [analyze_perievent] that fails - it returns [None] or
    raises - leaves the analysis cache of the session exactly as it was
    before the call. *)
Theorem failed_call_keeps_cache (ev : F) (win : option (F * F)) (norm : string)
    (w w' : World F) (r : result (option (Analysis F))) :
  analyze_perievent ev win norm w = (r, w') ->
  (forall res, r <> Ok (Some res)) ->
  analyses (self w') = analyses (self w).
Proof.
  intros E Hfail. now rewrite (analyze_perievent_failure _ _ _ _ E Hfail).
Qed.

(** C10.  [update_window] assigns the default window of the session and
    then the two mappings [analyzable_events] and [recorded_intervals],
    each from the behavioral source queried with the new window (a query
    that raises ends the call there).  However the call ends, the cache
    of analyses, the behavior and fiber sources and every other field of
    the session are left unchanged, and nothing is printed. *)
Theorem update_window_frame (new_window : F * F) (w : World F) :
  analyses (self (snd (update_window new_window w))) = analyses (self w) /\
  behavior (self (snd (update_window new_window w))) = behavior (self w) /\
  fiber (self (snd (update_window new_window w))) = fiber (self w) /\
  rat_ID (self (snd (update_window new_window w))) = rat_ID (self w) /\
  default_norm (self (snd (update_window new_window w))) = default_norm (self w) /\
  stdout (snd (update_window new_window w)) = stdout w /\
  default_window (self (snd (update_window new_window w))) = new_window /\
  match BehavioralData.events (behavior (self w)) true new_window,
        BehavioralData.intervals (behavior (self w)) true new_window with
  | Ok ev, Ok iv =>
      fst (update_window new_window w) = Ok tt /\
      analyzable_events (self (snd (update_window new_window w))) = ev /\
      recorded_intervals (self (snd (update_window new_window w))) = iv
  | Ok ev, Raise e =>
      fst (update_window new_window w) = Raise e /\
      analyzable_events (self (snd (update_window new_window w))) = ev /\
      recorded_intervals (self (snd (update_window new_window w)))
        = recorded_intervals (self w)
  | Raise e, _ =>
      fst (update_window new_window w) = Raise e /\
      analyzable_events (self (snd (update_window new_window w)))
        = analyzable_events (self w) /\
      recorded_intervals (self (snd (update_window new_window w)))
        = recorded_intervals (self w)
  end.
Proof.
  unfold update_window, set_default_window, set_analyzable_events,
    set_recorded_intervals, mbind, get_self, set_self, lift.
  cbn [self stdout behavior default_window].
  destruct (BehavioralData.events (behavior (self w)) true new_window) as [ev|e];
    cbn [self stdout behavior default_window];
    [destruct (BehavioralData.intervals (behavior (self w)) true new_window)
       as [iv|e] |];
    cbn; tauto.
Qed.

End PipelineFacts.

(** The contents of the lookup of the modelled fiber collaborator. *)
Lemma find_recording_outside {F : Type} {num : Scalar F}
    (recordings : list (nat * list (row F))) (t : F) :
  (forall r, In r recordings -> contains_time (snd r) t = false) ->
  find_recording recordings t = Ok [].
Proof.
  intros Hout. unfold find_recording. f_equal.
  induction recordings as [|r rs IH]; [reflexivity|].
  simpl. rewrite (Hout r) by now left.
  apply IH. intros r' Hr'. apply Hout. now right.
Qed.

(** ** The pipeline on the concrete session *)

Section DemoFacts.
Local Existing Instance SciPyRef.SciPy_ref.
Local Open Scope float_scope.

(** C4: the selector ['X'] is outside {raw, F, Z}, and the call returns
    [None] after printing; it does not fail with InvalidNormalization. *)
Lemma invalid_selector_not_raised :
  analyze_perievent 3 None "X" demo_world
    = (Ok None, {| self := demo_session; stdout := [invalid_norm_message] |}) /\
  ~ fails_with "InvalidNormalization" (analyze_perievent 3 None "X" demo_world).
Proof.
  split; [vm_compute; reflexivity|].
  unfold fails_with. vm_compute. discriminate.
Qed.

Lemma invalid_selector_prints_and_returns_none_witness :
  analyze_perievent 3 None "raw" demo_world
    = (Ok None, printed demo_world invalid_norm_message).
Proof.
  apply invalid_selector_prints_and_returns_none; discriminate.
Defined.

(** C5: the timestamp 30 lies outside the span [0, 9] of the only
    recording, and the call returns [None] after printing; it does not
    fail with RecordingNotFound. *)
Lemma no_recording_not_raised :
  contains_time demo_rows 30 = false /\
  analyze_perievent 30 None "F" demo_world
    = (Ok None, {| self := demo_session; stdout := [no_recording_message] |}) /\
  ~ fails_with "RecordingNotFound" (analyze_perievent 30 None "F" demo_world).
Proof.
  split; [vm_compute; reflexivity|].
  split; [vm_compute; reflexivity|].
  unfold fails_with. vm_compute. discriminate.
Qed.

Lemma no_recording_prints_and_returns_none_witness :
  analyze_perievent 30 None "F" demo_world
    = (Ok None, printed demo_world no_recording_message).
Proof.
  apply no_recording_prints_and_returns_none with (label := "delta F/F"%string).
  - reflexivity.
  - left. apply find_recording_outside.
    intros r [<- | []]. vm_compute. reflexivity.
Defined.

Lemma failed_call_keeps_cache_witness :
  analyses (self (snd (analyze_perievent 30 None "F" demo_world)))
    = analyses (self demo_world).
Proof.
  apply failed_call_keeps_cache
    with (ev := 30) (win := None) (norm := "F"%string) (r := Ok None).
  - vm_compute. reflexivity.
  - discriminate.
Defined.

End DemoFacts.

(** ** The window, its segments and their statistics *)

Section PerieventFacts.
Context {F : Type} {num : Scalar F} {scipy : SciPy F}.


(** The window is the slice [start_idx : end_idx + 1] of the recording,
    and every representation is split at the one offset
    [end_idx - event_idx] of that slice. *)
Lemma perievent_split (s : RatSession F) (ev : F) (win : option (F * F))
    (norm label : string) (rec : nat) (res : Analysis F) :
  perievent s ev win norm label rec = Ok res ->
  exists start_idx event_idx end_idx,
    _sample (map (@col0 F) (recordingdata res)) ev (window res)
      = Ok (start_idx, event_idx, end_idx) /\
    data res = Py.slice (Some (Z.of_nat start_idx)) (Some (Z.of_nat end_idx + 1)%Z)
                 (recordingdata res) /\
    time res = map (@col0 F) (data res) /\
    signal res = map (@col1 F) (data res) /\
    let k := (Z.of_nat end_idx - Z.of_nat event_idx)%Z in
    pre_time res = Py.upto k (time res) /\
    post_time res = Py.from k (time res) /\
    pre_raw_sig res = Py.upto k (raw_signal res) /\
    post_raw_sig res = Py.from k (raw_signal res) /\
    preevent res = Py.upto k (signal res) /\
    postevent res = Py.from k (signal res) /\
    pre_zscores res = Py.upto k (zscores res) /\
    post_zscores res = Py.from k (zscores res) /\
    pre_Rzscores res = Py.upto k (rob_zscores res) /\
    post_Rzscores res = Py.from k (rob_zscores res).
Proof.
  intros Hp. perievent_inv Hp. cbn.
  match goal with E : _sample _ _ _ = Ok (?a, ?b, ?c) |- _ => exists a, b, c end.
  rewrite !upto_map, !from_map. tauto.
Qed.

(** The z-scores of the window are taken against the mean and the
    standard deviation of the pre-event segment. *)
Lemma perievent_zscores (s : RatSession F) (ev : F) (win : option (F * F))
    (norm label : string) (rec : nat) (res : Analysis F) :
  perievent s ev win norm label rec = Ok res ->
  zscores res
    = map (fun x => fdiv (fsub x (Np.mean (preevent res))) (Np.std (preevent res)))
          (signal res).
Proof.
  intros Hp. perievent_inv Hp. reflexivity.
Qed.

Lemma perievent_pre_zscores (s : RatSession F) (ev : F) (win : option (F * F))
    (norm label : string) (rec : nat) (res : Analysis F) :
  perievent s ev win norm label rec = Ok res ->
  pre_zscores res
    = map (fun x => fdiv (fsub x (Np.mean (preevent res))) (Np.std (preevent res)))
          (preevent res).
Proof.
  intros Hp.
  destruct (perievent_split _ _ _ _ _ _ Hp)
    as (si & ei & di & _ & _ & _ & _ & _ & _ & _ & _ & Epre & _ & Ez & _).
  rewrite Ez, (perievent_zscores _ _ _ _ _ _ Hp), upto_map.
  now rewrite <- Epre.
Qed.

End PerieventFacts.

Section AreaFacts.
Context {F : Type} {num : Scalar F} {scipy : SciPy F}.



End AreaFacts.

(** ** Simpson's rule of the reference instance, in exact arithmetic *)

Section SimpsonReal.
Local Open Scope R_scope.






End SimpsonReal.

Section AreaTheorems.
Context {F : Type} {num : Scalar F} {scipy : SciPy F}.


End AreaTheorems.

Section DemoSegments.
Local Existing Instance SciPyRef.SciPy_ref.
Local Open Scope float_scope.



(** C1, on the code: the sampler gives the indices 2, 3 and 6, so the
    window holds the samples at 2, ..., 6 s and the event has offset
    3 - 2 = 1 in it.  The code splits at 6 - 3 = 3 instead: the pre-event
    segment holds the samples at 2, 3 and 4 s - the event sample and the
    one after it among them - where the samples before the offset of the
    event are the one at 2 s alone. *)
Theorem asymmetric_window_split :
  exists res w',
    demo_asymmetric = (Ok (Some res), w') /\
    _sample (map (@col0 float) (recordingdata res)) 3 (1, 3) = Ok (2, 3, 6)%nat /\
    time res = [2; 3; 4; 5; 6] /\
    pre_time res = [2; 3; 4] /\
    post_time res = [5; 6] /\
    preevent res = Py.upto (6 - 3) (signal res) /\
    Py.upto (3 - 2) (time res) = [2] /\
    Py.from (3 - 2) (time res) = [3; 4; 5; 6] /\
    pre_time res <> Py.upto (3 - 2) (time res) /\
    post_time res <> Py.from (3 - 2) (time res).
Proof.
  eexists. eexists. split; [reflexivity|].
  repeat split; try (vm_compute; reflexivity); vm_compute; discriminate.
Qed.

(** C9, on the code: for the event at 5 s with 3 s before and 2 s after
    it the sampler gives the indices 2, 5 and 7, so the samples before
    the event are the three at 2, 3 and 4 s, with the values 1, 3 and 1,
    which vary.  The code takes the mean and the standard deviation of
    the first 7 - 5 = 2 samples instead, 1 and 3: the z-scores of the
    three samples before the event are -1, 1 and -1, whose mean is less
    than 0 and whose standard deviation is less than 1. *)
Theorem asymmetric_window_baseline :
  exists res w',
    demo_late_event = (Ok (Some res), w') /\
    _sample (map (@col0 float) (recordingdata res)) 5 (3, 2) = Ok (2, 5, 7)%nat /\
    signal res = [1; 3; 1; 4; 2; 5] /\
    preevent res = [1; 3] /\
    Py.upto (5 - 2) (signal res) = [1; 3; 1] /\
    (0 <? Np.std (Py.upto (5 - 2) (signal res))) = true /\
    zscores res = [-1; 1; -1; 2; 0; 3] /\
    pre_zscores res = [-1; 1] /\
    Py.upto (5 - 2) (zscores res) = [-1; 1; -1] /\
    (Np.mean (Py.upto (5 - 2) (zscores res)) <? 0) = true /\
    (Np.std (Py.upto (5 - 2) (zscores res)) <? 1) = true.
Proof.
  eexists. eexists. split; [reflexivity|].
  repeat split; vm_compute; reflexivity.
Qed.

End DemoSegments.

(** ** Baseline z-scores over the reals *)

Section ZScoreFacts.
Local Open Scope R_scope.

Lemma sum_from (l : list R) (a : R) : fold_left Rplus l a = a + Np.sum l.
Proof.
  unfold Np.sum. cbn [fadd fzero Scalar_R].
  revert a. induction l as [|x l IH]; intros a; simpl.
  - lra.
  - rewrite (IH (a + x)), (IH (0 + x)). lra.
Qed.

Lemma sum_cons (x : R) (l : list R) : Np.sum (x :: l) = x + Np.sum l.
Proof.
  unfold Np.sum at 1. cbn [fadd fzero Scalar_R fold_left].
  rewrite sum_from. lra.
Qed.

Lemma sum_nil : Np.sum (@nil R) = 0.
Proof. reflexivity. Qed.

Lemma mean_R (l : list R) : Np.mean l = Np.sum l / INR (length l).
Proof. unfold Np.mean. cbn [fdiv of_int Scalar_R]. now rewrite <- INR_IZR_INZ. Qed.

Lemma std_R (l : list R) :
  Np.std l
  = sqrt (Np.mean (map (fun x => Rabs (x - Np.mean l) * Rabs (x - Np.mean l)) l)).
Proof. reflexivity. Qed.

Lemma sum_map_shift_scale (l : list R) (m c : R) :
  Np.sum (map (fun x => (x - m) / c) l) = (Np.sum l - INR (length l) * m) / c.
Proof.
  induction l as [|x l IH].
  - simpl. rewrite sum_nil. unfold Rdiv. ring.
  - cbn [map length]. rewrite !sum_cons, IH, S_INR. unfold Rdiv. ring.
Qed.

Lemma sum_map_scale (f : R -> R) (l : list R) (c : R) :
  Np.sum (map (fun x => f x * c) l) = Np.sum (map f l) * c.
Proof.
  induction l as [|x l IH].
  - simpl. rewrite sum_nil. ring.
  - cbn [map]. rewrite !sum_cons, IH. ring.
Qed.

Lemma std_nil : Np.std (@nil R) = 0.
Proof.
  rewrite std_R. cbn [map]. rewrite mean_R, sum_nil.
  unfold Rdiv. rewrite Rmult_0_l. apply sqrt_0.
Qed.

(** Scores taken against the mean and the standard deviation of the very
    values they are computed from have mean 0 and standard deviation 1. *)
Lemma standardised (l : list R) :
  Np.std l <> 0 ->
  Np.mean (map (fun x => (x - Np.mean l) / Np.std l) l) = 0 /\
  Np.std (map (fun x => (x - Np.mean l) / Np.std l) l) = 1.
Proof.
  intros Hsd.
  assert (Hn : INR (length l) <> 0).
  { destruct l; [now rewrite std_nil in Hsd | apply not_0_INR; discriminate]. }
  set (m := Np.mean l) in *. set (sd := Np.std l) in *.
  assert (Hmean : Np.mean (map (fun x => (x - m) / sd) l) = 0).
  { rewrite mean_R, length_map, sum_map_shift_scale.
    unfold m. rewrite mean_R. field. split; assumption. }
  split; [exact Hmean|].
  rewrite std_R, Hmean, map_map.
  set (V := Np.mean (map (fun x => Rabs (x - m) * Rabs (x - m)) l)).
  assert (Esd : sd = sqrt V) by (unfold sd, V, m; apply std_R).
  assert (HV : 0 < V).
  { destruct (Rlt_or_le 0 V) as [|Hle]; [assumption|].
    exfalso. apply Hsd. rewrite Esd. now apply sqrt_neg_0. }
  assert (Hsq : sd * sd = V) by (rewrite Esd; apply sqrt_sqrt; lra).
  rewrite (map_ext _ (fun x => (Rabs (x - m) * Rabs (x - m)) * / (sd * sd))).
  - rewrite mean_R, length_map, sum_map_scale.
    replace (Np.sum (map (fun x => Rabs (x - m) * Rabs (x - m)) l) * / (sd * sd)
             / INR (length l))
      with (V * / (sd * sd)).
    + rewrite Hsq. rewrite Rinv_r by lra. apply sqrt_1.
    + unfold V. rewrite mean_R, length_map. field. split; [lra | assumption].
  - intros x. rewrite Rminus_0_r.
    rewrite <- !Rabs_mult.
    rewrite !Rabs_pos_eq by (apply Rle_0_sqr).
    field. lra.
Qed.

End ZScoreFacts.

Section ZScoreTheorems.
Local Open Scope R_scope.

(** The segment the code calls [preevent] holds the first
    [end_idx - event_idx] samples of the window; they are the samples
    before the event only when the window is symmetric in samples.
    Whenever the standard deviation of that segment is not 0, the
    z-scores of that segment have mean 0 and standard deviation 1 in
    exact arithmetic: the mean and the standard deviation that normalise
    the window are those of that same segment. *)
Lemma pre_zscores_standardised {scipy : SciPy R} (ev : R) (win : option (R * R))
    (norm : string) (w w' : World R) (res : Analysis R) :
  analyze_perievent ev win norm w = (Ok (Some res), w') ->
  Np.std (preevent res) <> 0 ->
  Np.mean (pre_zscores res) = 0 /\ Np.std (pre_zscores res) = 1.
Proof.
  intros E Hsd.
  destruct (analyze_perievent_success _ _ _ _ E) as (label & rec & Hp & _).
  rewrite (perievent_pre_zscores _ _ _ _ _ _ Hp).
  now apply standardised.
Qed.

End ZScoreTheorems.

(** ** The session over the reals

    The event at 2 s with the default window: the pre-event segment
    holds the samples at 0 s and 1 s. *)

Section RampFacts.
Local Existing Instance SciPyRef.SciPy_ref.
Local Open Scope R_scope.

Lemma ramp_sample : _sample [0; 1; 2; 3; 4] 2 (2, 2) = Ok (0, 2, 4)%nat.
Proof.
  eval_model. repeat (decide_real; eval_model). reflexivity.
Qed.

Lemma ramp_contains : contains_time ramp_rows 2 = true.
Proof.
  eval_model. repeat (decide_real; eval_model). reflexivity.
Qed.

Lemma ramp_find : FiberData._find_rec (fiber ramp_session) 2 = Ok [1%nat].
Proof.
  change (FiberData._find_rec (fiber ramp_session) 2)
    with (Ok (map fst (if contains_time ramp_rows 2
                       then [(1%nat, ramp_rows)] else []))).
  now rewrite ramp_contains.
Qed.

Lemma ramp_norm_F : FiberData.norm (fiber ramp_session) 1 "F" = Ok ramp_dff.
Proof. reflexivity. Qed.

Lemma ramp_norm_raw : FiberData.norm (fiber ramp_session) 1 "raw" = Ok ramp_rows.
Proof. reflexivity. Qed.

(** The call returns a result; its pre-event segment holds the two values
    0 and 2 of delta F/F. *)
Lemma ramp_run :
  exists res w',
    analyze_perievent 2 None "F" ramp_world = (Ok (Some res), w') /\
    preevent res = [(1 - 1) / 1; (3 - 1) / 1].
Proof.
  eexists. eexists. split.
  - unfold analyze_perievent, mbind, get_self.
    cbn [self ramp_world].
    change (normalisation_label ramp_session "F") with (Some "delta F/F"%string).
    cbv iota beta.
    rewrite ramp_find.
    unfold perievent.
    rewrite ramp_norm_F, ramp_norm_raw. cbn [Py.bind].
    change (_sample (map (@col0 R) ramp_dff) 2 (default_window ramp_session))
      with (_sample [0; 1; 2; 3; 4] 2 (2, 2)).
    rewrite ramp_sample. cbn [Py.bind].
    eval_model. reflexivity.
  - reflexivity.
Qed.

Lemma ramp_std : Np.std [(1 - 1) / 1; (3 - 1) / 1] = 1.
Proof.
  rewrite std_R, !mean_R. cbn [map length].
  rewrite !sum_cons, !sum_nil.
  replace (INR 2) with 2 by (simpl; lra).
  replace ((1 - 1) / 1 - ((1 - 1) / 1 + ((3 - 1) / 1 + 0)) / 2) with (-1) by field.
  replace ((3 - 1) / 1 - ((1 - 1) / 1 + ((3 - 1) / 1 + 0)) / 2) with 1 by field.
  replace (Rabs (-1)) with 1 by (unfold Rabs; destruct (Rcase_abs (-1)); lra).
  rewrite Rabs_R1.
  replace ((1 * 1 + (1 * 1 + 0)) / 2) with 1 by field.
  apply sqrt_1.
Qed.

Lemma pre_zscores_standardised_witness :
  exists res : Analysis R,
    fst (analyze_perievent 2 None "F" ramp_world) = Ok (Some res) /\
    Np.std (preevent res) <> 0 /\
    Np.mean (pre_zscores res) = 0 /\ Np.std (pre_zscores res) = 1.
Proof.
  destruct ramp_run as (res & w' & E & Epre).
  exists res. split; [now rewrite E|].
  assert (Hsd : Np.std (preevent res) <> 0).
  { rewrite Epre, ramp_std. lra. }
  split; [exact Hsd|].
  exact (pre_zscores_standardised _ _ _ _ E Hsd).
Defined.

End RampFacts.

(** ** Smoothing *)

Section SmoothFacts.
Context {F : Type} {num : Scalar F} {scipy : SciPy F}.

Lemma map_seq_shift {B : Type} (g h : nat -> B) (k s n : nat) :
  (forall j, g (j + k) = h j) ->
  map g (seq (s + k) n) = map h (seq s n).
Proof.
  intros Hgh. revert s. induction n as [|n IH]; intros s; [reflexivity|].
  cbn [seq map]. rewrite Hgh. f_equal. exact (IH (S s)).
Qed.

(** The rolling mean without its first [w - 1] entries: one mean for
    every window of [w] consecutive values. *)
Lemma rolling_mean_trimmed (w : Z) (a : list F) :
  (1 <= w)%Z ->
  exists r,
    Pandas.rolling_mean w a = Ok r /\
    Py.from (w - 1) r
      = map (window_mean (Z.to_nat w) a) (seq 0 (length a + 1 - Z.to_nat w)).
Proof.
  intros Hw. unfold Pandas.rolling_mean.
  destruct (Z.ltb_spec w 0) as [|_]; [lia|].
  eexists. split; [reflexivity|].
  set (wn := Z.to_nat w).
  assert (Hwn : 1 <= wn) by (unfold wn; lia).
  replace (w - 1)%Z with (Z.of_nat (wn - 1)) by (unfold wn; lia).
  rewrite from_skipn, skipn_map, skipn_seq.
  replace (length a - (wn - 1)) with (length a + 1 - wn) by lia.
  apply map_seq_shift. intros j.
  destruct (Nat.ltb_spec (S (j + (wn - 1))) wn) as [|_]; [lia|].
  unfold window_mean. do 3 f_equal. lia.
Qed.

Lemma vstack_T_same_length (t v : list F) :
  length t = length v -> vstack_T t v = Ok (combine t v).
Proof. intros E. unfold vstack_T. now rewrite E, Nat.eqb_refl. Qed.

(** C8 (as amended).  Let the series have [n] values and be paired with
    a time axis of [n] values, and let the window resolve to the integer
    [w].  With the moving-average method and [w >= 1], [smooth] returns
    [max 0 (n - w + 1)] rows - [n - w + 1] of them when [w <= n + 1], none
    for a longer window - and row [j] pairs the mean of the [w] time
    values from position [j] with the mean of the [w] series values from
    position [j].  With the polynomial-fit method, [smooth] hands the
    series to SciPy's filter with the window made odd; when the filter,
    which keeps the length of its input, returns, [smooth] returns [n]
    rows, and when it raises, [smooth] raises the same exception. *)
Theorem smooth_lengths (a : Analysis F) (data : data_arg F) (d : list F)
    (window : window_arg) (w p : Z) :
  (forall x w' p' y, savgol_filter x w' p' = Ok y -> length y = length x) ->
  resolve_data a data = Ok d ->
  resolve_window a window = Ok (WindowInt w) ->
  length (time a) = length d ->
  ((1 <= w)%Z ->
   let rows :=
     map (fun j => (window_mean (Z.to_nat w) (time a) j, window_mean (Z.to_nat w) d j))
         (seq 0 (length d + 1 - Z.to_nat w)) in
   smooth a data "rolling" window p true = Ok (WithTime rows) /\
   Z.of_nat (length rows) = Z.max 0 (Z.of_nat (length d) - w + 1)) /\
  match savgol_filter d (if (w mod 2 =? 0)%Z then (w + 1)%Z else w) p with
  | Ok sm =>
      smooth a data "savgol" window p true = Ok (WithTime (combine (time a) sm)) /\
      length (combine (time a) sm) = length d
  | Raise e => smooth a data "savgol" window p true = Raise e
  end.
Proof.
  intros Hlib Hd Hw Hlen. split.
  - intros Hw1. cbv zeta. split.
    + unfold smooth. rewrite Hd, Hw. cbn [Py.bind].
      change (String.eqb "rolling" "savgol") with false.
      change (String.eqb "rolling" "rolling") with true. cbv iota.
      destruct (rolling_mean_trimmed d Hw1) as (r & Er & Efr).
      destruct (rolling_mean_trimmed (time a) Hw1) as (rt & Ert & Efrt).
      rewrite Er. cbn [Py.bind]. rewrite Ert. cbn [Py.bind].
      rewrite Efr, Efrt, Hlen.
      rewrite vstack_T_same_length by now rewrite !length_map.
      cbn [Py.bind]. do 2 f_equal.
      generalize (seq 0 (length d + 1 - Z.to_nat w)) as l.
      induction l as [|j l IH]; [reflexivity|].
      cbn [map combine]. now rewrite IH.
    + rewrite length_map, length_seq. lia.
  - unfold smooth. rewrite Hd, Hw. cbn [Py.bind].
    change (String.eqb "savgol" "savgol") with true. cbv iota.
    destruct (savgol_filter d (if (w mod 2 =? 0)%Z then (w + 1)%Z else w) p)
      as [sm|e] eqn:Es; cbn [Py.bind]; [|reflexivity].
    pose proof (Hlib _ _ _ _ Es) as Hsm.
    rewrite vstack_T_same_length by congruence.
    cbn [Py.bind]. split; [reflexivity|].
    rewrite length_combine. lia.
Qed.

End SmoothFacts.

Section SmoothDemo.
Local Existing Instance SciPyRef.SciPy_ref.
Local Open Scope float_scope.

Lemma savgol_ref_length (x : list float) (w p : Z) (y : list float) :
  savgol_filter x w p = Ok y -> length y = length x.
Proof.
  cbn [savgol_filter SciPyRef.SciPy_ref]. unfold SciPyRef.savgol_ref.
  destruct ((0 <=? p)%Z && (p <? w)%Z && (w <=? Z.of_nat (length x))%Z);
    [|discriminate].
  intros E. inversion E. now rewrite length_map, length_seq.
Qed.

(** C8: the window of the concrete session has five samples; the moving
    average over 7 samples returns no row at all, not 5 - 7 + 1 rows. *)
Lemma long_window_rolling_is_empty :
  exists res w',
    demo_asymmetric = (Ok (Some res), w') /\
    length (signal res) = 5%nat /\
    smooth res (DataName "signal") "rolling" (WindowInt 7) 3 true = Ok (WithTime []) /\
    Z.of_nat (length (@nil (float * float))) <> (5 - 7 + 1)%Z.
Proof.
  eexists. eexists. split; [reflexivity|].
  split; [reflexivity|].
  split; [vm_compute; reflexivity | discriminate].
Qed.

(** On the same window, the moving average over 2 samples returns
    5 - 2 + 1 = 4 rows and the polynomial filter over 4 samples, made 5,
    returns 5 rows. *)
Lemma smooth_lengths_witness :
  exists res : Analysis float,
    fst demo_asymmetric = Ok (Some res) /\
    (exists rows,
        smooth res (DataName "signal") "rolling" (WindowInt 2) 3 true
          = Ok (WithTime rows) /\
        length rows = 4%nat /\
        map fst rows = [2.5; 3.5; 4.5; 5.5]) /\
    (exists rows,
        smooth res (DataName "signal") "savgol" (WindowInt 4) 3 true
          = Ok (WithTime rows) /\
        length rows = 5%nat).
Proof.
  eexists. split; [reflexivity|].
  match goal with
  | |- (exists rows, smooth ?a _ _ _ _ _ = _ /\ _) /\ _ =>
      destruct (@smooth_lengths float _ _ a (DataName "signal") (signal a)
                  (WindowInt 2) 2 3 savgol_ref_length eq_refl eq_refl eq_refl)
        as [Hroll _];
      destruct (@smooth_lengths float _ _ a (DataName "signal") (signal a)
                  (WindowInt 4) 4 3 savgol_ref_length eq_refl eq_refl eq_refl)
        as [_ Hsav]
  end.
  split.
  - destruct (Hroll ltac:(lia)) as [E _].
    eexists. split; [exact E|].
    split; vm_compute; reflexivity.
  - vm_compute in Hsav. destruct Hsav as [E _].
    eexists. split; [vm_compute; exact E|]. reflexivity.
Defined.

End SmoothDemo.

(** * Further properties of the code *)

(** ** The results of [analyze_perievent] and the cache *)

Section ResultFacts.
Context {F : Type} {num : Scalar F} {scipy : SciPy F}.

(** X1.  In every result the pre-event and the post-event segment
    partition the window, in each representation: time, raw signal,
    signal, z-scores and robust z-scores. *)
Theorem segments_partition_window (ev : F) (win : option (F * F)) (norm : string)
    (w w' : World F) (res : Analysis F) :
  analyze_perievent ev win norm w = (Ok (Some res), w') ->
  pre_time res ++ post_time res = time res /\
  pre_raw_sig res ++ post_raw_sig res = raw_signal res /\
  preevent res ++ postevent res = signal res /\
  pre_zscores res ++ post_zscores res = zscores res /\
  pre_Rzscores res ++ post_Rzscores res = rob_zscores res.
Proof.
  intros E.
  destruct (analyze_perievent_success _ _ _ _ E) as (label & rec & Hp & _).
  destruct (perievent_split _ _ _ _ _ _ Hp)
    as (s & e & d & _ & _ & _ & _ & -> & -> & -> & -> & -> & -> & -> & -> & -> & ->).
  now rewrite !upto_from_app.
Qed.

Lemma perievent_provenance (s : RatSession F) (ev : F) (win : option (F * F))
    (norm label : string) (rec : nat) (res : Analysis F) :
  perievent s ev win norm label rec = Ok res ->
  event_time res = ev /\
  rec_number res = rec /\
  normalisation res = label /\
  window res = match win with None => default_window s | Some x => x end /\
  fiberfile res = FiberData.filepath (fiber s) /\
  behaviorfile res = BehavioralData.filepath (behavior s) /\
  FiberData.norm (fiber s) rec norm = Ok (recordingdata res) /\
  FiberData.norm (fiber s) rec "raw" = Ok (rawdata res).
Proof.
  intros Hp. perievent_inv Hp. cbn. tauto.
Qed.

(** X2.  A result records where it comes from: the event time of the
    call, the first recording the lookup found, the label of the
    selector, the window of the call (the default window of the session
    for ['default']), and the arrays the fiber source gave for that
    recording under the selector and under ['raw']. *)
Theorem result_provenance (ev : F) (win : option (F * F)) (norm : string)
    (w w' : World F) (res : Analysis F) :
  analyze_perievent ev win norm w = (Ok (Some res), w') ->
  event_time res = ev /\
  (exists rest,
      FiberData._find_rec (fiber (self w)) ev = Ok (rec_number res :: rest)) /\
  normalisation_label (self w) norm = Some (normalisation res) /\
  window res = match win with None => default_window (self w) | Some x => x end /\
  FiberData.norm (fiber (self w)) (rec_number res) norm = Ok (recordingdata res) /\
  FiberData.norm (fiber (self w)) (rec_number res) "raw" = Ok (rawdata res).
Proof.
  intros E.
  destruct (analyze_perievent_cases ev win norm w)
    as [[_ E'] | [(label & _ & _ & E') | [(e & E') | (label & rec & rest & res' & El & Ef & Hp & E')]]];
    rewrite E in E'; inversion E'; subst.
  destruct (perievent_provenance _ _ _ _ _ _ Hp)
    as (Hev & Hrec & Hlab & Hwin & _ & _ & Hn & Hr).
  rewrite Hrec, Hlab. repeat split; auto. now exists rest.
Qed.

Lemma dict_update_In {V : Type} (k : cache_key F) (v : V) (d : list (cache_key F * V)) :
  In (k, v) (dict_update k v d).
Proof.
  induction d as [|[k' v'] d IH]; simpl; [now left|].
  destruct (key_eqb k k'); [now left | now right].
Qed.

Lemma dict_update_keeps {V : Type} (k : cache_key F) (v : V)
    (d : list (cache_key F * V)) (entry : cache_key F * V) :
  In entry d -> key_eqb k (fst entry) = false -> In entry (dict_update k v d).
Proof.
  induction d as [|[k' v'] d IH]; simpl; [tauto|].
  intros [<- | Hin] Hk.
  - simpl in Hk. rewrite Hk. now left.
  - destruct (key_eqb k k'); right; auto.
Qed.

Lemma dict_update_idempotent {V : Type} (k : cache_key F) (v : V)
    (d : list (cache_key F * V)) :
  key_eqb k k = true ->
  dict_update k v (dict_update k v d) = dict_update k v d.
Proof.
  intros Hk. induction d as [|[k' v'] d IH]; simpl.
  - now rewrite Hk.
  - destruct (key_eqb k k') eqn:E; simpl.
    + now rewrite Hk.
    + now rewrite E, IH.
Qed.

Lemma dict_update_length {V : Type} (k : cache_key F) (v : V)
    (d : list (cache_key F * V)) :
  length (dict_update k v d) = length d \/ length (dict_update k v d) = S (length d).
Proof.
  induction d as [|[k' v'] d IH]; simpl; [now right|].
  destruct (key_eqb k k'); simpl; [now left|].
  destruct IH as [-> | ->]; auto.
Qed.

Lemma result_inv (ev : F) (win : option (F * F)) (norm : string)
    (w w' : World F) (res : Analysis F) :
  analyze_perievent ev win norm w = (Ok (Some res), w') ->
  event_time res = ev /\
  w' = {| self := cached (self w) res; stdout := stdout w |}.
Proof.
  intros E.
  destruct (analyze_perievent_success _ _ _ _ E) as (label & rec & Hp & Hw).
  split; [|exact Hw].
  now destruct (perievent_provenance _ _ _ _ _ _ Hp) as (Hev & _).
Qed.

(** X3.  A successful call stores the result it returns in the cache,
    under the key of its recording, event time and window; the cache
    grows by one entry at most. *)
Theorem successful_call_is_cached (ev : F) (win : option (F * F)) (norm : string)
    (w w' : World F) (res : Analysis F) :
  analyze_perievent ev win norm w = (Ok (Some res), w') ->
  In ((rec_number res, ev, window res), res) (analyses (self w')) /\
  (length (analyses (self w')) = length (analyses (self w)) \/
   length (analyses (self w')) = S (length (analyses (self w)))).
Proof.
  intros E.
  destruct (result_inv _ _ _ _ E) as (Hev & Hw).
  subst w'. cbn [self analyses cached]. rewrite Hev.
  split; [apply dict_update_In | apply dict_update_length].
Qed.

End ResultFacts.

Section CacheFacts.
Context {F : Type} {num : Scalar F} {scipy : SciPy F}.

Lemma perievent_cached (s : RatSession F) (r : Analysis F) (ev : F)
    (win : option (F * F)) (norm label : string) (rec : nat) :
  perievent (cached s r) ev win norm label rec = perievent s ev win norm label rec.
Proof. reflexivity. Qed.

Lemma key_eqb_refl (k : cache_key F) :
  (forall x : F, fstr_eqb x x = true) -> key_eqb k k = true.
Proof.
  intros Hrefl. destruct k as [[r t] [a b]]. simpl.
  now rewrite Nat.eqb_refl, !Hrefl.
Qed.

(** X4.  When every scalar prints as itself ([str(x) == str(x)]),
    repeating a successful call on the session it left returns the same
    result and leaves the session, cache included, as it is: the entry
    of the key is overwritten, none is added. *)
Theorem repeated_call_is_idempotent (ev : F) (win : option (F * F)) (norm : string)
    (w w' : World F) (res : Analysis F) :
  (forall x : F, fstr_eqb x x = true) ->
  analyze_perievent ev win norm w = (Ok (Some res), w') ->
  analyze_perievent ev win norm w' = (Ok (Some res), w').
Proof.
  intros Hrefl E.
  destruct (analyze_perievent_cases ev win norm w)
    as [[_ E'] | [(label & _ & _ & E') | [(e & E') | (label & rec & rest & res' & El & Ef & Hp & E')]]];
    rewrite E in E'; inversion E'; subst.
  unfold analyze_perievent, remember, mbind, get_self, ret, lift, set_self.
  cbn [self stdout].
  change (normalisation_label (cached (self w) res') norm)
    with (normalisation_label (self w) norm).
  rewrite El.
  change (FiberData._find_rec (fiber (cached (self w) res')) ev)
    with (FiberData._find_rec (fiber (self w)) ev).
  rewrite Ef, perievent_cached, Hp.
  do 2 f_equal. unfold cached. cbn [rat_ID behavior fiber analyses
    analyzable_events recorded_intervals default_window default_norm].
  f_equal. apply dict_update_idempotent, key_eqb_refl, Hrefl.
Qed.

(** X5.  A successful call never evicts what the cache holds under
    other keys: every entry whose key differs from the key of the new
    result is still in the cache afterwards. *)
Theorem successful_call_keeps_other_entries (ev : F) (win : option (F * F))
    (norm : string) (w w' : World F) (res : Analysis F)
    (entry : cache_key F * Analysis F) :
  analyze_perievent ev win norm w = (Ok (Some res), w') ->
  In entry (analyses (self w)) ->
  key_eqb (rec_number res, event_time res, window res) (fst entry) = false ->
  In entry (analyses (self w')).
Proof.
  intros E Hin Hk.
  destruct (result_inv _ _ _ _ E) as (_ & ->).
  cbn [self analyses cached]. now apply dict_update_keeps.
Qed.

(** X6.  A recording that has no sample makes the call raise
    [ValueError]; nothing is printed and the session is left as it was. *)
Theorem empty_recording_raises (ev : F) (win : option (F * F)) (norm label : string)
    (rec : nat) (rest : list nat) (raw : list (row F)) (w : World F) :
  normalisation_label (self w) norm = Some label ->
  FiberData._find_rec (fiber (self w)) ev = Ok (rec :: rest) ->
  FiberData.norm (fiber (self w)) rec norm = Ok [] ->
  FiberData.norm (fiber (self w)) rec "raw" = Ok raw ->
  analyze_perievent ev win norm w = (Raise ValueError, w).
Proof.
  intros El Ef En Er.
  unfold analyze_perievent, mbind, get_self, lift. rewrite El, Ef.
  unfold perievent. now rewrite En, Er.
Qed.


(** X8.  Of two successive window updates the last one decides: the
    session after both is the session the second update alone would have
    left. *)
Theorem last_update_wins (first second : F * F) (w w1 w2 : World F) :
  update_window first w = (Ok tt, w1) ->
  update_window second w1 = (Ok tt, w2) ->
  update_window second w = (Ok tt, w2).
Proof.
  unfold update_window, set_default_window, set_analyzable_events,
    set_recorded_intervals, mbind, get_self, set_self, lift.
  cbn [self stdout behavior default_window].
  destruct (BehavioralData.events (behavior (self w)) true first) as [ev1|e];
    cbn [self stdout behavior default_window]; [|discriminate].
  destruct (BehavioralData.intervals (behavior (self w)) true first) as [iv1|e];
    [|discriminate].
  intros E1. inversion E1; subst; clear E1.
  cbn [self stdout behavior default_window].
  destruct (BehavioralData.events (behavior (self w)) true second) as [ev2|e];
    cbn [self stdout behavior default_window]; [|discriminate].
  destruct (BehavioralData.intervals (behavior (self w)) true second) as [iv2|e];
    [|discriminate].
  intros E2. inversion E2; subst; clear E2. reflexivity.
Qed.

(** X9.  A session built by [__init__] has an empty cache, and its two
    mappings are those of its default window: updating the window to the
    default window leaves the session as it is. *)
Theorem init_is_fixed_by_update (ld : @Loaders F)
    (b : source (BehavioralData.t F)) (f : source (FiberData.t F))
    (id : option string) (dw : F * F) (dn : string) (s : RatSession F)
    (out : list string) :
  RatSession_init ld b f id dw dn = Ok s ->
  analyses s = [] /\
  default_window s = dw /\
  update_window dw {| self := s; stdout := out |}
    = (Ok tt, {| self := s; stdout := out |}).
Proof.
  unfold RatSession_init. intros E.
  repeat match type of E with
         | Py.bind ?r _ = Ok _ =>
             let H := fresh "H" in
             destruct r eqn:H; cbn [Py.bind] in E; [|discriminate E]
         end.
  inversion E; subst; clear E. cbn [analyses default_window].
  split; [reflexivity|]. split; [reflexivity|].
  unfold update_window, set_default_window, set_analyzable_events,
    set_recorded_intervals, mbind, get_self, set_self, lift.
  cbn [self stdout behavior default_window].
  match goal with H : BehavioralData.events _ _ _ = Ok _ |- _ => rewrite H end.
  cbn [self stdout behavior default_window].
  match goal with H : BehavioralData.intervals _ _ _ = Ok _ |- _ => rewrite H end.
  reflexivity.
Qed.

End CacheFacts.

Section ResultWitnesses.
Local Existing Instance SciPyRef.SciPy_ref.
Local Open Scope float_scope.

Lemma segments_partition_window_witness :
  exists res : Analysis float,
    fst (analyze_perievent 3 (Some (1, 3)) "F" demo_world) = Ok (Some res) /\
    pre_time res ++ post_time res = time res /\
    pre_raw_sig res ++ post_raw_sig res = raw_signal res /\
    preevent res ++ postevent res = signal res /\
    pre_zscores res ++ post_zscores res = zscores res /\
    pre_Rzscores res ++ post_Rzscores res = rob_zscores res.
Proof.
  eexists. split; [reflexivity|].
  eapply segments_partition_window
    with (ev := 3) (win := Some (1, 3)) (norm := "F"%string) (w := demo_world).
  reflexivity.
Defined.

Lemma result_provenance_witness :
  exists res : Analysis float,
    fst (analyze_perievent 3 None "F" demo_world) = Ok (Some res) /\
    event_time res = 3 /\
    (exists rest, FiberData._find_rec demo_fiber 3 = Ok (rec_number res :: rest)) /\
    normalisation_label demo_session "F" = Some (normalisation res) /\
    window res = (1, 1) /\
    FiberData.norm demo_fiber (rec_number res) "F" = Ok (recordingdata res) /\
    FiberData.norm demo_fiber (rec_number res) "raw" = Ok (rawdata res).
Proof.
  eexists. split; [reflexivity|].
  eapply (@result_provenance float _ _ 3 None "F" demo_world).
  reflexivity.
Defined.

Lemma successful_call_is_cached_witness :
  exists (res : Analysis float) (w' : World float),
    analyze_perievent 3 None "F" demo_world = (Ok (Some res), w') /\
    In ((rec_number res, 3, window res), res) (analyses (self w')) /\
    (length (analyses (self w')) = length (analyses demo_session) \/
     length (analyses (self w')) = S (length (analyses demo_session))).
Proof.
  eexists. eexists. split; [reflexivity|].
  eapply (@successful_call_is_cached float _ _ 3 None "F" demo_world).
  reflexivity.
Defined.

(** Two events of the session, analysed one after the other: the result
    of the first is still cached after the second. *)
Lemma successful_call_keeps_other_entries_witness :
  exists (res1 res2 : Analysis float) (w2 : World float),
    analyze_perievent 3 None "F" demo_world = (Ok (Some res1), demo_after_first) /\
    analyze_perievent 5 None "F" demo_after_first = (Ok (Some res2), w2) /\
    In ((1%nat, 3, (1, 1)), res1) (analyses (self w2)).
Proof.
  eexists.
  match eval vm_compute in (analyze_perievent 5 None "F" demo_after_first) with
  | (Ok (Some ?r), ?w) => exists r, w
  end.
  split; [reflexivity|].
  match goal with
  | |- ?P /\ _ => assert (E : P) by (vm_compute; reflexivity)
  end.
  split; [exact E|].
  eapply successful_call_keeps_other_entries; [exact E | left; reflexivity |].
  vm_compute. reflexivity.
Defined.

Lemma empty_recording_raises_witness :
  analyze_perievent 3 None "F" hollow_world = (Raise ValueError, hollow_world).
Proof.
  apply empty_recording_raises
    with (label := "delta F/F"%string) (rec := 1%nat) (rest := []) (raw := []);
    reflexivity.
Defined.


Lemma last_update_wins_witness :
  exists w1 w2 : World float,
    update_window (2, 2) demo_world = (Ok tt, w1) /\
    update_window (1, 3) w1 = (Ok tt, w2) /\
    update_window (1, 3) demo_world = (Ok tt, w2).
Proof.
  match eval vm_compute in (update_window (2, 2) demo_world) with
  | (Ok tt, ?w) => exists w
  end.
  match eval vm_compute in (update_window (1, 3) demo_world) with
  | (Ok tt, ?w) => exists w
  end.
  match goal with
  | |- ?P /\ _ => assert (E1 : P) by (vm_compute; reflexivity)
  end.
  split; [exact E1|].
  match goal with
  | |- ?P /\ _ => assert (E2 : P) by (vm_compute; reflexivity)
  end.
  split; [exact E2|].
  exact (last_update_wins (2, 2) (1, 3) demo_world E1 E2).
Defined.

Lemma init_is_fixed_by_update_witness :
  analyses demo_session = [] /\
  default_window demo_session = (1, 1) /\
  update_window (1, 1) demo_world = (Ok tt, demo_world).
Proof.
  apply init_is_fixed_by_update
    with (ld := {| load_behavior := fun _ => Raise ValueError;
                   load_fiber := fun _ _ => Raise ValueError |})
         (b := Object demo_behavior) (f := Object demo_fiber)
         (id := Some "rat1"%string) (dn := "F"%string).
  vm_compute. reflexivity.
Defined.

End ResultWitnesses.

Section RepeatedCallWitness.
Local Existing Instance SciPyRef.SciPy_ref.
Local Open Scope R_scope.

Lemma repeated_call_is_idempotent_witness :
  exists (res : Analysis R) (w' : World R),
    analyze_perievent 2 None "F" ramp_world = (Ok (Some res), w') /\
    analyze_perievent 2 None "F" w' = (Ok (Some res), w').
Proof.
  destruct ramp_run as (res & w' & E & _).
  exists res, w'. split; [exact E|].
  apply repeated_call_is_idempotent with (w := ramp_world); [|exact E].
  intros x. apply Reqb_eq. reflexivity.
Defined.

End RepeatedCallWitness.

(** ** What a call leaves of the session *)

Section SessionFrame.
Context {F : Type} {num : Scalar F} {scipy : SciPy F}.

(** X10.  However a call of [analyze_perievent] ends, the sources, the
    identifier, the defaults and the two event mappings of the session
    are what they were.  A call that returns a result prints nothing; a
    call that returns [None] leaves the session as it was and prints one
    of the two messages, once; a call that raises leaves the session and
    the output as they were. *)
Theorem analyze_perievent_frame (ev : F) (win : option (F * F)) (norm : string)
    (w : World F) :
  behavior (self (snd (analyze_perievent ev win norm w))) = behavior (self w) /\
  fiber (self (snd (analyze_perievent ev win norm w))) = fiber (self w) /\
  rat_ID (self (snd (analyze_perievent ev win norm w))) = rat_ID (self w) /\
  default_norm (self (snd (analyze_perievent ev win norm w))) = default_norm (self w) /\
  default_window (self (snd (analyze_perievent ev win norm w)))
    = default_window (self w) /\
  analyzable_events (self (snd (analyze_perievent ev win norm w)))
    = analyzable_events (self w) /\
  recorded_intervals (self (snd (analyze_perievent ev win norm w)))
    = recorded_intervals (self w) /\
  match fst (analyze_perievent ev win norm w) with
  | Ok (Some _) => stdout (snd (analyze_perievent ev win norm w)) = stdout w
  | Ok None =>
      self (snd (analyze_perievent ev win norm w)) = self w /\
      (stdout (snd (analyze_perievent ev win norm w))
         = stdout w ++ [invalid_norm_message] \/
       stdout (snd (analyze_perievent ev win norm w))
         = stdout w ++ [no_recording_message])
  | Raise _ => snd (analyze_perievent ev win norm w) = w
  end.
Proof.
  destruct (analyze_perievent_cases ev win norm w)
    as [[_ E] | [(label & _ & _ & E) | [(e & E) | (label & rec & rest & res & _ & _ & _ & E)]]];
    rewrite E; unfold printed; cbn; repeat split; auto.
Qed.

(** X11.  When the constructor of the fiber source builds a source with
    the alignment it is given, and the start of the recording of the
    behavioral source is equal to itself (it is not a NaN), the fiber
    source of a session built by [__init__] is aligned on that start,
    whether the session was given a fiber source - aligned or not - or
    the path of one. *)
Theorem init_fiber_is_aligned (ld : @Loaders F)
    (b : source (BehavioralData.t F)) (f : source (FiberData.t F))
    (id : option string) (dw : F * F) (dn : string) (s : RatSession F) :
  (forall p a f', load_fiber ld p a = Ok f' -> FiberData.alignement f' = a) ->
  RatSession_init ld b f id dw dn = Ok s ->
  feqb (BehavioralData.rec_start (behavior s))
       (BehavioralData.rec_start (behavior s)) = true ->
  feqb (FiberData.alignement (fiber s)) (BehavioralData.rec_start (behavior s)) = true.
Proof.
  intros Hld E. unfold RatSession_init in E.
  repeat match type of E with
         | Py.bind ?r _ = Ok _ =>
             let H := fresh "H" in
             destruct r eqn:H; cbn [Py.bind] in E; [|discriminate E]
         end.
  inversion E; subst; clear E. cbn [fiber behavior]. intros Hstart.
  destruct f as [f|p]; [|now rewrite (Hld _ _ _ H0)].
  destruct (feqb (FiberData.alignement f) (BehavioralData.rec_start a)) eqn:Ea.
  - inversion H0; subst. exact Ea.
  - now rewrite (Hld _ _ _ H0).
Qed.

(** X12.  The sampler ends in one of three ways: on an array with no
    sample it raises [ValueError]; on any other array it returns three
    indices of the array, or raises [IndexError] - no position holds the
    least distance, which takes a distance that is not equal to itself,
    a NaN. *)
Theorem sample_outcomes (times : list F) (ev : F) (win : F * F) :
  (times = [] /\ _sample times ev win = Raise ValueError) \/
  (times <> [] /\
   ((exists s e d,
        _sample times ev win = Ok (s, e, d) /\
        s < length times /\ e < length times /\ d < length times) \/
    _sample times ev win = Raise IndexError)).
Proof.
  destruct times as [|t times]; [left; split; reflexivity | right].
  split; [discriminate|].
  destruct (_sample (t :: times) ev win) as [[[s e] d]|x] eqn:E.
  - left. exists s, e, d. split; [reflexivity|].
    exact (sample_indices_valid _ _ _ E).
  - right. f_equal. revert E. unfold _sample. cbv zeta.
    cbn [Np.sub_scalar Np.absolute map Np.min Py.bind].
    repeat match goal with
           | |- Py.bind ?r _ = Raise _ -> _ =>
               let H := fresh "H" in
               destruct r eqn:H; cbn [Py.bind]
           end;
      try discriminate;
      intros Hr; inversion Hr; subst;
      match goal with
      | H : Py.first _ = Raise _ |- _ => exact (first_raises _ H)
      | H : Py.last _ = Raise _ |- _ => exact (last_raises _ H)
      end.
Qed.

End SessionFrame.

(** ** Plotting the events of a session *)

Section PlotFacts.
Context {F : Type}.

(** X13.  For every choice other than ['events'] and ['intervals'],
    [RatSession.plot] prints its message and then raises
    [UnboundLocalError]: the figure is not drawn, whatever the figure
    method is, and the session is left as it was. *)
Theorem plot_unknown_choice
    (figure : list (plotted F) -> list string -> M F unit) (what : string)
    (w : World F) :
  what <> "events"%string -> what <> "intervals"%string ->
  RatSession_plot figure what w
    = (Raise UnboundLocalError, printed w choose_message).
Proof.
  intros He Hi. apply String.eqb_neq in He, Hi.
  unfold RatSession_plot, mbind, get_self. now rewrite He, Hi.
Qed.


End PlotFacts.

(** ** The attributes of a result *)

Section AttributeFacts.
Context {F : Type} {num : Scalar F} {scipy : SciPy F}.

Lemma getitem_In {V : Type} (d : list (string * V)) (k : string) (v : V) :
  NoDup (map fst d) -> In (k, v) d -> getitem d k = Ok v.
Proof.
  unfold getitem. induction d as [|[k' v'] d IH]; [intros _ []|].
  cbn [map fst]. intros Hnd Hin. apply NoDup_cons_iff in Hnd as [Hk Hnd].
  cbn [find fst].
  destruct (String.eqb k' k) eqn:E.
  - apply String.eqb_eq in E. subst k'.
    destruct Hin as [Heq | Hin]; [now inversion Heq|].
    destruct Hk. change k with (fst (k, v)). now apply in_map.
  - destruct Hin as [Heq | Hin]; [|now apply IH].
    inversion Heq; subst. now rewrite String.eqb_refl in E.
Qed.

Lemma dict_keys_distinct (a : Analysis F) : NoDup (map fst (__dict__ a)).
Proof.
  cbn [__dict__ map fst].
  match goal with
  | |- NoDup ?l => replace l with (nodup string_dec l) by (vm_compute; reflexivity)
  end.
  apply NoDup_nodup.
Qed.

(** The names [_possible_data] lists, on a dictionary [d] and for arrays
    of [n] entries. *)
Lemma listed_intro (d : list (string * attribute F)) (n : nat) (name : string)
    (v : attribute F) :
  In (name, v) d -> ndarray_len v = Some n ->
  In name
     (map fst
        (filter (fun kv => match ndarray_len (snd kv) with
                           | Some m => Nat.eqb m n
                           | None => false
                           end) d)).
Proof.
  intros Hin Hv. apply in_map_iff. exists (name, v). split; [reflexivity|].
  apply filter_In. split; [exact Hin|]. cbn [snd]. rewrite Hv. apply Nat.eqb_refl.
Qed.

Lemma listed_inv (d : list (string * attribute F)) (n : nat) (name : string) :
  NoDup (map fst d) ->
  In name
     (map fst
        (filter (fun kv => match ndarray_len (snd kv) with
                           | Some m => Nat.eqb m n
                           | None => false
                           end) d)) ->
  exists v, getitem d name = Ok v /\ ndarray_len v = Some n.
Proof.
  intros Hnd Hin.
  apply in_map_iff in Hin as ([k v] & Hk & Hin). cbn [fst] in Hk. subst k.
  apply filter_In in Hin as [Hin Hlen]. cbn [snd] in Hlen.
  exists v. split; [now apply getitem_In|].
  destruct (ndarray_len v) as [m|]; [|discriminate].
  apply Nat.eqb_eq in Hlen. now subst m.
Qed.

(** The arrays of a window have one row, one value, for each of its
    time values. *)
Lemma perievent_lengths (s : RatSession F) (ev : F) (win : option (F * F))
    (norm label : string) (rec : nat) (res : Analysis F) :
  perievent s ev win norm label rec = Ok res ->
  length (data res) = length (time res) /\
  length (signal res) = length (time res) /\
  length (zscores res) = length (time res) /\
  length (rob_zscores res) = length (time res).
Proof.
  intros Hp. perievent_inv Hp. cbn. now rewrite !length_map.
Qed.

(** X15.  For every result, [_possible_data] lists ['data'], ['signal'],
    ['time'], ['zscores'] and ['rob_zscores'], and whatever it lists is
    the name of an attribute that is an array with as many entries as the
    time axis of the window; no number and no string is listed. *)
Theorem possible_data_of_result (ev : F) (win : option (F * F)) (norm : string)
    (w w' : World F) (res : Analysis F) :
  analyze_perievent ev win norm w = (Ok (Some res), w') ->
  (forall name,
      In name ["data"; "signal"; "time"; "zscores"; "rob_zscores"]%string ->
      In name (possible_names res)) /\
  (forall name,
      In name (possible_names res) ->
      exists v,
        getitem (__dict__ res) name = Ok v /\
        ndarray_len v = Some (length (time res))).
Proof.
  intros E.
  destruct (analyze_perievent_success _ _ _ _ E) as (label & rec & Hp & _).
  destruct (perievent_lengths _ _ _ _ _ _ Hp) as (Hd & Hs & Hz & Hr).
  split.
  - intros name Hin.
    assert (Hv : exists v, In (name, v) (__dict__ res) /\
                           ndarray_len v = Some (length (time res))).
    { cbn [In] in Hin.
      destruct Hin as [<- | [<- | [<- | [<- | [<- | []]]]]];
        [ exists (Array2 (data res)) | exists (Array1 (signal res))
        | exists (Array1 (time res)) | exists (Array1 (zscores res))
        | exists (Array1 (rob_zscores res)) ];
        (split; [cbn [__dict__ In]; tauto|]); cbn [ndarray_len];
        congruence. }
    destruct Hv as (v & Hv & Hn). unfold possible_names.
    revert Hv. generalize (__dict__ res). intros d Hv.
    now apply listed_intro with (v := v).
  - intros name. unfold possible_names.
    generalize (dict_keys_distinct res). generalize (__dict__ res).
    intros d Hnd Hin. now apply listed_inv.
Qed.


End AttributeFacts.

(** ** The branches of [smooth] *)

Section SmoothBranches.
Context {F : Type} {num : Scalar F} {scipy : SciPy F}.

Lemma map_snd_combine_same_length {A B : Type} (t : list A) (v : list B) :
  length t = length v -> map snd (combine t v) = v.
Proof.
  revert v. induction t as [|x t IH]; intros [|y v] E; try discriminate; [reflexivity|].
  cbn. f_equal. apply IH. now inversion E.
Qed.

Lemma vstack_T_inv (t v : list F) (rows : list (F * F)) :
  vstack_T t v = Ok rows -> map snd rows = v.
Proof.
  unfold vstack_T. destruct (Nat.eqb (length t) (length v)) eqn:E; [|discriminate].
  intros H. inversion H. apply map_snd_combine_same_length. now apply Nat.eqb_eq.
Qed.

(** X17.  The polynomial filter is never given an even window: an even
    window [w] is smoothed as [w + 1] is. *)
Theorem savgol_even_window_is_next_odd (a : Analysis F) (data : data_arg F)
    (w p : Z) (add_time : bool) :
  (w mod 2 = 0)%Z ->
  smooth a data "savgol" (WindowInt w) p add_time
    = smooth a data "savgol" (WindowInt (w + 1)) p add_time.
Proof.
  intros Hw. unfold smooth.
  destruct (resolve_data a data) as [d|e]; [|reflexivity].
  cbn [Py.bind resolve_window].
  change (String.eqb "savgol" "savgol") with true. cbv iota.
  assert (Hodd : ((w + 1) mod 2 =? 0)%Z = false).
  { apply Z.eqb_neq. rewrite Z.add_mod, Hw by lia. discriminate. }
  rewrite Hodd. apply Z.eqb_eq in Hw. now rewrite Hw.
Qed.

(** X18.  Whenever [smooth] returns rows of time and value, the same
    call with [add_time=False] returns the second column of those rows. *)
Theorem smooth_without_time (a : Analysis F) (data : data_arg F) (method : string)
    (window : window_arg) (p : Z) (rows : list (F * F)) :
  smooth a data method window p true = Ok (WithTime rows) ->
  smooth a data method window p false = Ok (Series (map snd rows)).
Proof.
  unfold smooth.
  destruct (resolve_data a data) as [d|e]; [|discriminate]. cbn [Py.bind].
  destruct (resolve_window a window) as [w0|e]; [|discriminate]. cbn [Py.bind].
  destruct (String.eqb method "savgol").
  - destruct w0 as [s|w0]; [discriminate|].
    destruct (savgol_filter d (if (w0 mod 2 =? 0)%Z then (w0 + 1)%Z else w0) p)
      as [sm|e]; [|discriminate].
    cbn [Py.bind].
    destruct (vstack_T (time a) sm) as [r|e] eqn:Ev; [|discriminate].
    cbn [Py.bind]. intros H. inversion H; subst.
    now rewrite (vstack_T_inv _ _ Ev).
  - destruct (String.eqb method "rolling"); [|discriminate].
    destruct w0 as [s|w0]; [discriminate|].
    destruct (Pandas.rolling_mean w0 d) as [r|e]; [|discriminate].
    cbn [Py.bind].
    destruct (Pandas.rolling_mean w0 (time a)) as [rt|e]; [|discriminate].
    cbn [Py.bind].
    destruct (vstack_T (Py.from (w0 - 1) rt) (Py.from (w0 - 1) r)) as [rs|e] eqn:Ev;
      [|discriminate].
    cbn [Py.bind]. intros H. inversion H; subst.
    now rewrite (vstack_T_inv _ _ Ev).
Qed.


End SmoothBranches.


(** ** The further properties on the concrete session *)

Section FurtherWitnesses.
Local Existing Instance SciPyRef.SciPy_ref.
Local Open Scope float_scope.

Lemma init_fiber_is_aligned_witness :
  exists s : RatSession float,
    RatSession_init demo_loaders (Object demo_behavior) (Object shifted_fiber)
      None (1, 1) "F" = Ok s /\
    FiberData.alignement shifted_fiber = 5 /\
    feqb (FiberData.alignement (fiber s)) (BehavioralData.rec_start (behavior s)) = true.
Proof.
  eexists. split; [reflexivity|]. split; [reflexivity|].
  eapply init_fiber_is_aligned
    with (ld := demo_loaders) (b := Object demo_behavior) (f := Object shifted_fiber)
         (id := None) (dw := (1, 1)) (dn := "F"%string).
  - intros p a f' H. inversion H. reflexivity.
  - reflexivity.
  - reflexivity.
Defined.

Lemma plot_unknown_choice_witness :
  RatSession_plot blank_figure "all" demo_world
    = (Raise UnboundLocalError, printed demo_world choose_message).
Proof. apply plot_unknown_choice; discriminate. Defined.

Lemma possible_data_of_result_witness :
  exists res : Analysis float,
    fst demo_asymmetric = Ok (Some res) /\
    (forall name,
        In name ["data"; "signal"; "time"; "zscores"; "rob_zscores"]%string ->
        In name (possible_names res)) /\
    (forall name,
        In name (possible_names res) ->
        exists v,
          getitem (__dict__ res) name = Ok v /\
          ndarray_len v = Some (length (time res))).
Proof.
  eexists. split; [reflexivity|].
  eapply possible_data_of_result
    with (ev := 3) (win := Some (1, 3)) (norm := "F"%string) (w := demo_world).
  reflexivity.
Defined.

Lemma savgol_even_window_is_next_odd_witness :
  smooth (F := float) (scipy := SciPyRef.SciPy_ref)
    demo_result (DataName "signal") "savgol" (WindowInt 4) 3 true
  = smooth demo_result (DataName "signal") "savgol" (WindowInt (4 + 1)) 3 true.
Proof. apply savgol_even_window_is_next_odd. reflexivity. Defined.

Lemma smooth_without_time_witness :
  smooth demo_result (DataName "signal") "rolling" (WindowInt 2) 3 true
    = Ok (WithTime [(2.5, 2); (3.5, 2); (4.5, 2.5); (5.5, 3)]) /\
  smooth demo_result (DataName "signal") "rolling" (WindowInt 2) 3 false
    = Ok (Series (map snd [(2.5, 2); (3.5, 2); (4.5, 2.5); (5.5, 3)])).
Proof.
  assert (E : smooth demo_result (DataName "signal") "rolling" (WindowInt 2) 3 true
              = Ok (WithTime [(2.5, 2); (3.5, 2); (4.5, 2.5); (5.5, 3)]))
    by (vm_compute; reflexivity).
  split; [exact E|]. exact (smooth_without_time _ _ _ _ _ E).
Defined.


End FurtherWitnesses.
